(** * A shallow embedding of the quality-problem RAG chatbot

    The repository is glue code over third-party libraries: document
    loaders, a text splitter, a FAISS vector store and a retrieval chain.
    The embedding keeps the repository's own control flow (guards, loops,
    try/except, the dictionaries it builds) and takes every third-party
    call as a field of the class [World]: what such a call answers is the
    library's business, when and with which arguments it is called is the
    repository's.

    Console output ([print]) is not part of the model.  A Python [str] is
    modelled by the [string] of its UTF-8 encoding, as the Japanese text
    of the source is written here: one character is one byte that is not
    of the form 10xxxxxx, followed by its continuation bytes.  Lengths,
    slices and stripping count characters, not bytes. *)

From Stdlib Require Import ZArith String Ascii List Bool Lia.
From stdpp Require Import base tactics option list strings gmap.

Open Scope Z_scope.
Open Scope string_scope.
Open Scope list_scope.

(** ** Python values *)

Module Py.

(** [str.lower], on the ASCII letters.  The code compares lower-cased
    text only with the extension keys and with the word yes, and finds
    loaders only under those keys; no character outside ASCII lower-cases
    to one of their letters, so for these comparisons the ASCII letters
    decide. *)
Definition lower_ascii (c : ascii) : ascii :=
  let n := nat_of_ascii c in
  if (Nat.leb 65 n && Nat.leb n 90)%bool then ascii_of_nat (n + 32) else c.

Fixpoint lower (s : string) : string :=
  match s with
  | EmptyString => EmptyString
  | String c s' => String (lower_ascii c) (lower s')
  end.

(** A byte 10xxxxxx: it continues the character begun before it. *)
Definition is_continuation (c : ascii) : bool :=
  let n := nat_of_ascii c in (Nat.leb 128 n && Nat.ltb n 192)%bool.

(** [len(s)]: the number of characters. *)
Fixpoint len (s : string) : nat :=
  match s with
  | EmptyString => 0%nat
  | String c s' => if is_continuation c then len s' else S (len s')
  end.

(** [s[:n]]: the first [n] characters, each with all its bytes. *)
Fixpoint slice_to (n : nat) (s : string) : string :=
  match s with
  | EmptyString => EmptyString
  | String c s' =>
      if is_continuation c then String c (slice_to n s')
      else
        match n with
        | O => EmptyString
        | S n' => String c (slice_to n' s')
        end
  end.

(** A string that does not start in the middle of a character. *)
Definition starts_character (s : string) : bool :=
  match s with
  | EmptyString => true
  | String c _ => negb (is_continuation c)
  end.

(** [s.rfind(c)], [None] for -1. *)
Fixpoint rfind (c : ascii) (s : string) : option nat :=
  match s with
  | EmptyString => None
  | String a s' =>
      match rfind c s' with
      | Some i => Some (S i)
      | None => if Ascii.eqb a c then Some 0%nat else None
      end
  end.

Fixpoint all_dots (s : string) : bool :=
  match s with
  | EmptyString => true
  | String a s' => Ascii.eqb a "." && all_dots s'
  end.

(** [os.path.splitext] (posixpath): the extension starts at the last dot
    of the last path component, unless only dots precede it there. *)
Definition splitext (p : string) : string * string :=
  match rfind "." p with
  | None => (p, "")
  | Some dot =>
      let start := match rfind "/" p with None => 0%nat | Some i => S i end in
      if all_dots (substring start (dot - start) p) then (p, "")
      else (substring 0 dot p, substring dot (String.length p - dot) p)
  end.

(** Truth value of [os.getenv(name)]: unset and empty are both falsy. *)
Definition truthy (v : option string) : bool :=
  match v with
  | None => false
  | Some s => negb (String.eqb s "")
  end.

End Py.

(** [langchain_core.documents.Document] *)
Record Document := mkDocument {
  page_content : string;
  metadata : gmap string string
}.

(** [dict.get(key, default)] *)
Definition dict_get (m : gmap string string) (key dflt : string) : string :=
  default dflt (m !! key).

(** [doc.metadata[key] = value] *)
Definition set_metadata (key value : string) (doc : Document) : Document :=
  mkDocument (page_content doc) (<[key := value]> (metadata doc)).

(** ** Exceptions, effects and runs *)

(** Subclasses of [Exception]: what [except Exception] catches. *)
Inductive exception :=
| ValueError (msg : string)
| KeyError (key : string)
| LibraryError (msg : string).

(** [BaseException]: [sys.exit] raises [SystemExit], which
    [except Exception] lets through. *)
Inductive exn :=
| Exc (e : exception)
| SystemExit (code : Z).

Inductive res (A : Type) :=
| Ok (a : A)
| Raise (e : exn).
Arguments Ok {A} a.
Arguments Raise {A} e.

(** The loader classes of [langchain_community.document_loaders]. *)
Inductive LoaderClass :=
| TextLoader
| PyPDFLoader
| UnstructuredExcelLoader
| Docx2txtLoader
| CSVLoader.

(** The third-party calls a run performs, in order. *)
Inductive event :=
| LoaderLoad (cls : LoaderClass) (file_path : string)
| NewEmbeddings
| NewChatLLM (model_name : string)
| SplitDocuments (chunk_size chunk_overlap : Z) (documents : list Document)
| FromDocuments (chunks : list Document)
| SaveLocal (index_path : string)
| LoadLocal (index_path : string)
| AddDocuments (chunks : list Document)
| Rmtree (path : string)
| SimilaritySearch (query : string) (k : Z)
| SimilaritySearchWithScore (query : string) (k : Z)
| ChainInvoke (chain_type : string) (k : Z) (return_source_documents : bool)
    (query : string).

(** A run of a piece of code: the calls it made and how it ended. *)
Record run (A : Type) := Run {
  trace : list event;
  outcome : res A
}.
Arguments Run {A} trace outcome.
Arguments trace {A} r.
Arguments outcome {A} r.

Definition raise {A} (e : exn) : run A := Run [] (Raise e).

#[global] Instance run_ret : MRet run := fun A a => Run [] (Ok a).

#[global] Instance run_bind : MBind run := fun A B f m =>
  match outcome m with
  | Ok a => Run (trace m ++ trace (f a)) (outcome (f a))
  | Raise e => Run (trace m) (Raise e)
  end.

(** What a third-party call answers: a value or an [Exception]. *)
Definition fallible (A : Type) : Type := exception + A.

(** Perform the third-party call [ev], whose answer is [r]. *)
Definition call {A} (ev : event) (r : fallible A) : run A :=
  Run [ev] (match r with inl e => Raise (Exc e) | inr a => Ok a end).

(** [try: body except Exception as e: handler e] *)
Definition try_except {A} (body : run A) (handler : exception -> run A) : run A :=
  match outcome body with
  | Raise (Exc e) => Run (trace body ++ trace (handler e)) (outcome (handler e))
  | _ => body
  end.

(** [for x in xs: acc = step acc x] *)
Fixpoint for_each {A S} (xs : list A) (step : S -> A -> run S) (acc : S) : run S :=
  match xs with
  | [] => mret acc
  | x :: xs' => acc' ← step acc x; for_each xs' step acc'
  end.

(** The event of a document loader being run. *)
Definition is_loader_load (ev : event) : Prop :=
  exists cls file_path, ev = LoaderLoad cls file_path.

(** ** The world outside the repository *)

(** [PromptTemplate(template=..., input_variables=...)] *)
Record PromptTemplate := mkPromptTemplate {
  template : string;
  input_variables : list string
}.

(** [vectorstore.as_retriever(search_kwargs={"k": k})] *)
Record Retriever (VS : Type) := mkRetriever {
  retriever_store : VS;
  search_kwargs_k : Z
}.
Arguments mkRetriever {VS} _ _.
Arguments retriever_store {VS} _.
Arguments search_kwargs_k {VS} _.

(** [RetrievalQA.from_chain_type(...)] *)
Record RetrievalQA (VS LLM : Type) := mkRetrievalQA {
  chain_llm : LLM;
  chain_type : string;
  retriever : Retriever VS;
  return_source_documents : bool;
  chain_prompt : PromptTemplate
}.
Arguments mkRetrievalQA {VS LLM} _ _ _ _ _.
Arguments chain_llm {VS LLM} _.
Arguments chain_type {VS LLM} _.
Arguments retriever {VS LLM} _.
Arguments return_source_documents {VS LLM} _.
Arguments chain_prompt {VS LLM} _.

(** What [qa_chain.invoke] returns: ["result"], and ["source_documents"]
    when the chain was asked for them. *)
Record ChainResult := mkChainResult {
  result_text : string;
  source_documents : option (list Document)
}.

(** [RecursiveCharacterTextSplitter(chunk_size, chunk_overlap, length_function=len)] *)
Record TextSplitter := mkTextSplitter {
  chunk_size : Z;
  chunk_overlap : Z
}.

(** What the third-party code and the operating system answer.  The fields
    are functions of their arguments: within one run the same question
    gets the same answer. *)
Class World := {
  (** FAISS stores, embedding clients, chat models, distance scores *)
  VS : Type;
  Embeddings : Type;
  LLM : Type;
  score : Type;
  (** the process environment and the file system *)
  environ : gmap string string;
  path_exists : string -> bool;
  path_join : string -> string -> string;
  os_walk : string -> list (string * list string * list string);
  rmtree : string -> fallible unit;
  (** the builtin [hash] on [str] *)
  py_hash : string -> Z;
  (** [loader_class(file_path).load()] *)
  loader_load : LoaderClass -> string -> fallible (list Document);
  (** [OpenAIEmbeddings()], [ChatOpenAI(model_name=..., temperature=...)] *)
  new_embeddings : fallible Embeddings;
  new_chat_llm : string -> Z -> fallible LLM;
  (** [text_splitter.split_documents(documents)] *)
  split_documents : TextSplitter -> list Document -> fallible (list Document);
  (** [FAISS.from_documents], [save_local], [load_local], [add_documents] *)
  from_documents : list Document -> Embeddings -> fallible VS;
  save_local : VS -> string -> fallible unit;
  load_local : string -> Embeddings -> fallible VS;
  add_documents : VS -> list Document -> fallible VS;
  (** [similarity_search], [similarity_search_with_score] *)
  similarity_search : VS -> string -> Z -> fallible (list Document);
  similarity_search_with_score : VS -> string -> Z -> fallible (list (Document * score));
  (** [qa_chain.invoke({"query": query})] *)
  chain_invoke : RetrievalQA VS LLM -> string -> fallible ChainResult
}.

(** [os.getenv(name)] *)
Definition getenv `{World} (name : string) : option string := environ !! name.

(** ** loaders/load_documents.py *)

Module LoadDocuments.
Section Defs.
Context `{W : World}.

Record DocumentLoader := mkDocumentLoader {
  data_folder : string;
  supported_extensions : gmap string LoaderClass
}.

(** [DocumentLoader.__init__] *)
Definition init (data_folder : string) : DocumentLoader :=
  mkDocumentLoader data_folder
    (list_to_map
       [(".txt", TextLoader); (".pdf", PyPDFLoader);
        (".xlsx", UnstructuredExcelLoader); (".xls", UnstructuredExcelLoader);
        (".docx", Docx2txtLoader); (".doc", Docx2txtLoader);
        (".csv", CSVLoader)]).

(** [os.path.splitext(file)[1].lower()] *)
Definition file_ext_of (file : string) : string :=
  Py.lower (snd (Py.splitext file)).

(** [DocumentLoader._load_single_file] *)
Definition _load_single_file (self : DocumentLoader)
    (file_path file_ext : string) : run (list Document) :=
  match supported_extensions self !! file_ext with
  | None => raise (Exc (KeyError file_ext))
  | Some loader_class =>
      call (LoaderLoad loader_class file_path) (loader_load loader_class file_path)
  end.

(** The three assignments to [doc.metadata] in the inner loop. *)
Definition tag_document (file file_path file_ext : string) (doc : Document)
    : Document :=
  set_metadata "file_type" file_ext
    (set_metadata "source_path" file_path
       (set_metadata "source_file" file doc)).

(** The body of the try block: load, tag, extend. *)
Definition load_and_tag (self : DocumentLoader) (all_documents : list Document)
    (file file_path file_ext : string) : run (list Document) :=
  documents ← _load_single_file self file_path file_ext;
  mret (all_documents ++ map (tag_document file file_path file_ext) documents).

(** One step of [for file in files] in [load_all_documents]. *)
Definition load_all_step (self : DocumentLoader) (root : string)
    (all_documents : list Document) (file : string) : run (list Document) :=
  let file_path := path_join root file in
  let file_ext := file_ext_of file in
  if decide (is_Some (supported_extensions self !! file_ext)) then
    try_except (load_and_tag self all_documents file file_path file_ext)
      (fun _ => mret all_documents)
  else mret all_documents.

(** [DocumentLoader.load_all_documents] *)
Definition load_all_documents (self : DocumentLoader) : run (list Document) :=
  if negb (path_exists (data_folder self)) then mret []
  else
    for_each (os_walk (data_folder self))
      (fun all_documents '(root, _, files) =>
         for_each files (load_all_step self root) all_documents)
      [].

(** One step of [for file in files] in [load_documents_by_type]. *)
Definition load_by_type_step (self : DocumentLoader) (file_type root : string)
    (documents : list Document) (file : string) : run (list Document) :=
  let file_path := path_join root file in
  let file_ext := file_ext_of file in
  if String.eqb file_ext (Py.lower file_type) then
    try_except (load_and_tag self documents file file_path file_ext)
      (fun _ => mret documents)
  else mret documents.

(** [DocumentLoader.load_documents_by_type] *)
Definition load_documents_by_type (self : DocumentLoader) (file_type : string)
    : run (list Document) :=
  if negb (path_exists (data_folder self)) then mret []
  else
    for_each (os_walk (data_folder self))
      (fun documents '(root, _, files) =>
         for_each files (load_by_type_step self file_type root) documents)
      [].

(** [load_quality_documents] *)
Definition load_quality_documents (data_folder : string) : run (list Document) :=
  load_all_documents (init data_folder).

End Defs.
End LoadDocuments.

(** ** vectorstore/build_vectorstore.py *)

Module BuildVectorstore.
Section Defs.
Context `{W : World}.

Record VectorStoreBuilder := mkVectorStoreBuilder {
  index_path : string;
  embeddings : Embeddings;
  text_splitter : TextSplitter
}.

(** [VectorStoreBuilder.__init__] *)
Definition init (index_path : string) : run VectorStoreBuilder :=
  embeddings ← call NewEmbeddings new_embeddings;
  mret (mkVectorStoreBuilder index_path embeddings (mkTextSplitter 1000 200)).

Definition empty_documents_message : string :=
  "ドキュメントが空です。ベクトルストアを構築できません。".

Definition no_documents_message (data_folder : string) : string :=
  "フォルダ内にドキュメントが見つかりませんでした: " +:+ data_folder.

(** [self.text_splitter.split_documents(documents)] *)
Definition split (self : VectorStoreBuilder) (documents : list Document)
    : run (list Document) :=
  call (SplitDocuments (chunk_size (text_splitter self))
          (chunk_overlap (text_splitter self)) documents)
       (split_documents (text_splitter self) documents).

(** [VectorStoreBuilder.build_vectorstore] *)
Definition build_vectorstore (self : VectorStoreBuilder)
    (documents : list Document) : run VS :=
  match documents with
  | [] => raise (Exc (ValueError empty_documents_message))
  | _ :: _ =>
      split_docs ← split self documents;
      call (FromDocuments split_docs) (from_documents split_docs (embeddings self))
  end.

(** [VectorStoreBuilder.save_vectorstore] *)
Definition save_vectorstore (self : VectorStoreBuilder) (vectorstore : VS)
    : run unit :=
  call (SaveLocal (index_path self)) (save_local vectorstore (index_path self)).

(** [VectorStoreBuilder.load_vectorstore] *)
Definition load_vectorstore (self : VectorStoreBuilder) : run (option VS) :=
  if negb (path_exists (index_path self)) then mret None
  else
    try_except
      (vectorstore ← call (LoadLocal (index_path self))
                       (load_local (index_path self) (embeddings self));
       mret (Some vectorstore))
      (fun _ => mret None).

(** [VectorStoreBuilder.update_vectorstore] *)
Definition update_vectorstore (self : VectorStoreBuilder)
    (new_documents : list Document) : run unit :=
  loaded ← load_vectorstore self;
  vectorstore ←
    match loaded with
    | None => build_vectorstore self new_documents
    | Some vectorstore =>
        split_docs ← split self new_documents;
        call (AddDocuments split_docs) (add_documents vectorstore split_docs)
    end;
  save_vectorstore self vectorstore.

(** [build_vectorstore_from_folder] *)
Definition build_vectorstore_from_folder (data_folder index_path : string)
    : run VS :=
  documents ← LoadDocuments.load_quality_documents data_folder;
  match documents with
  | [] => raise (Exc (ValueError (no_documents_message data_folder)))
  | _ :: _ =>
      builder ← init index_path;
      vectorstore ← build_vectorstore builder documents;
      _ ← save_vectorstore builder vectorstore;
      mret vectorstore
  end.

End Defs.
End BuildVectorstore.

(** ** rag/query_handler.py *)

Module QueryHandler.
Section Defs.
Context `{W : World}.

Record RAGQueryHandler := mkRAGQueryHandler {
  index_path : string;
  embeddings : Embeddings;
  llm : LLM;
  vectorstore : option VS
}.

(** [RAGQueryHandler._load_vectorstore]: any failure leaves [None]. *)
Definition _load_vectorstore (index_path : string) (embeddings : Embeddings)
    : run (option VS) :=
  try_except
    (vectorstore ← call (LoadLocal index_path) (load_local index_path embeddings);
     mret (Some vectorstore))
    (fun _ => mret None).

(** [RAGQueryHandler.__init__] *)
Definition init (index_path model_name : string) : run RAGQueryHandler :=
  embeddings ← call NewEmbeddings new_embeddings;
  llm ← call (NewChatLLM model_name) (new_chat_llm model_name 0);
  vectorstore ← _load_vectorstore index_path embeddings;
  mret (mkRAGQueryHandler index_path embeddings llm vectorstore).

(** The dictionaries the four query operations build. *)
Record SimilarCase := mkSimilarCase {
  case_content : string;
  case_metadata : gmap string string;
  similarity_score : score
}.

Record SourceInfo := mkSourceInfo {
  file : string;
  type : string;
  content_preview : string
}.

Record QueryResponse := mkQueryResponse {
  answer : string;
  sources : list SourceInfo
}.

Record RelevantDocument := mkRelevantDocument {
  content : string;
  source_file : string;
  file_type : string;
  source_path : string
}.

Record KeywordResult := mkKeywordResult {
  kw_content : string;
  kw_metadata : gmap string string;
  keyword : string
}.

(** [RAGQueryHandler.search_similar_cases]; [float(score)] keeps the
    value of the score. *)
Definition search_similar_cases (self : RAGQueryHandler) (query : string)
    (k : Z) : run (list SimilarCase) :=
  match vectorstore self with
  | None => mret []
  | Some vs =>
      docs_with_scores ← call (SimilaritySearchWithScore query k)
                           (similarity_search_with_score vs query k);
      mret (map (fun '(doc, score) =>
                   mkSimilarCase (page_content doc) (metadata doc) score)
                docs_with_scores)
  end.

Definition not_loaded_message : string :=
  "エラー: ベクトルストアが読み込まれていません。先にインデックスを構築してください。".

Definition unknown : string := "不明".

Definition prompt_template : string :=
  "あなたは品質管理と是正策の専門家です。
以下の過去の案件情報を参考に、質問に対して詳細かつ具体的な回答を提供してください。

過去の案件情報:
{context}

質問: {question}

回答する際は以下の点に注意してください:
1. 過去の類似案件から学んだ教訓を活用する
2. 具体的な是正策や対応方法を提示する
3. 再発防止のための予防策も提案する
4. 情報源が明確な場合はファイル名を参照する

回答:".

(** The chain [handle_query] builds over a loaded store. *)
Definition qa_chain (self : RAGQueryHandler) (vs : VS) (return_sources : bool)
    : RetrievalQA VS LLM :=
  mkRetrievalQA (llm self) "stuff" (mkRetriever vs 5) return_sources
    (mkPromptTemplate prompt_template ["context"; "question"]).

(** The [source_info] dictionary of one source document. *)
Definition source_info (doc : Document) : SourceInfo :=
  mkSourceInfo
    (dict_get (metadata doc) "source_file" unknown)
    (dict_get (metadata doc) "file_type" unknown)
    (Py.slice_to 200 (page_content doc) +:+ "...").

(** [RAGQueryHandler.handle_query] *)
Definition handle_query (self : RAGQueryHandler) (query : string)
    (return_sources : bool) : run QueryResponse :=
  match vectorstore self with
  | None => mret (mkQueryResponse not_loaded_message [])
  | Some vs =>
      let chain := qa_chain self vs return_sources in
      result ← call (ChainInvoke (chain_type chain)
                       (search_kwargs_k (retriever chain))
                       (return_source_documents chain) query)
                 (chain_invoke chain query);
      mret (mkQueryResponse (result_text result)
              (match return_sources, source_documents result with
               | true, Some docs => map source_info docs
               | _, _ => []
               end))
  end.

(** [RAGQueryHandler.get_relevant_documents] *)
Definition get_relevant_documents (self : RAGQueryHandler) (query : string)
    (k : Z) : run (list RelevantDocument) :=
  match vectorstore self with
  | None => mret []
  | Some vs =>
      docs ← call (SimilaritySearch query k) (similarity_search vs query k);
      mret (map (fun doc =>
                   mkRelevantDocument (page_content doc)
                     (dict_get (metadata doc) "source_file" unknown)
                     (dict_get (metadata doc) "file_type" unknown)
                     (dict_get (metadata doc) "source_path" ""))
                docs)
  end.

(** The dictionary [search_by_keywords] appends for a kept document. *)
Definition tagged (keyword : string) (doc : Document) : KeywordResult :=
  mkKeywordResult (page_content doc) (metadata doc) keyword.

(** The body of [for doc in docs] in [search_by_keywords]: the state is
    [(all_results, seen_contents)]. *)
Definition keep_unseen (keyword : string)
    (st : list KeywordResult * gset Z) (doc : Document)
    : list KeywordResult * gset Z :=
  let content_hash := py_hash (page_content doc) in
  if decide (content_hash ∈ st.2) then st
  else (st.1 ++ [tagged keyword doc], {[content_hash]} ∪ st.2).

(** The body of [for keyword in keywords]. *)
Definition search_keyword (vs : VS) (k : Z)
    (st : list KeywordResult * gset Z) (keyword : string)
    : run (list KeywordResult * gset Z) :=
  docs ← call (SimilaritySearch keyword k) (similarity_search vs keyword k);
  mret (fold_left (keep_unseen keyword) docs st).

(** [RAGQueryHandler.search_by_keywords] *)
Definition search_by_keywords (self : RAGQueryHandler) (keywords : list string)
    (k : Z) : run (list KeywordResult) :=
  match vectorstore self with
  | None => mret []
  | Some vs =>
      st ← for_each keywords (search_keyword vs k) ([], ∅);
      mret st.1
  end.

(** The module-level convenience function [handle_query]. *)
Definition handle_query_answer (query index_path : string) : run string :=
  handler ← init index_path "gpt-4o-mini";
  result ← handle_query handler query true;
  mret (answer result).

End Defs.
End QueryHandler.

(** ** main.py *)

Module Main.
Section Defs.
Context `{W : World}.

(** [interactive_mode], the console menu loop: it reads its commands from
    standard input and is not modelled; [main] takes it as given. *)
Variable interactive_mode : string -> run unit.

(** [sys.exit(code)] *)
Definition sys_exit {A} (code : Z) : run A := raise (SystemExit code).

(** [initialize_system] *)
Definition initialize_system (data_folder : string) (force_rebuild : bool)
    : run unit :=
  let index_path := "faiss_index" in
  let index_exists := path_exists index_path in
  index_exists ←
    (if (force_rebuild && index_exists)%bool then
       _ ← call (Rmtree index_path) (rmtree index_path);
       mret false
     else mret index_exists);
  if negb index_exists then
    if negb (path_exists data_folder) then sys_exit 1
    else
      try_except
        (_ ← BuildVectorstore.build_vectorstore_from_folder data_folder index_path;
         mret tt)
        (fun _ => sys_exit 1)
  else mret tt.

(** [main] *)
Definition main : run unit :=
  if negb (Py.truthy (getenv "OPENAI_API_KEY")) then sys_exit 1
  else
    let data_folder := default "./data" (getenv "QUALITY_DATA_FOLDER") in
    _ ← initialize_system data_folder false;
    interactive_mode data_folder.

End Defs.
End Main.

(** ** demo.py *)

Module Demo.
Section Defs.
Context `{W : World}.

Definition sample_queries : list string :=
  ["溶接不良の是正策を教えてください";
   "寸法不良を防ぐにはどうすればいいですか";
   "過去の品質問題で最も多い原因は何ですか"].

(** [demo] *)
Definition demo : run unit :=
  let data_folder := "./data" in
  let index_path := "faiss_index" in
  ready ←
    (if negb (path_exists index_path) then
       try_except
         (_ ← BuildVectorstore.build_vectorstore_from_folder data_folder index_path;
          mret true)
         (fun _ => mret false)
     else mret true);
  if negb ready then mret tt
  else
    handler ← QueryHandler.init index_path "gpt-4o-mini";
    _ ← for_each sample_queries
          (fun _ query =>
             try_except
               (_ ← QueryHandler.handle_query handler query true; mret tt)
               (fun _ => mret tt))
          tt;
    try_except
      (_ ← QueryHandler.search_similar_cases handler "溶接" 3; mret tt)
      (fun _ => mret tt).

(** The [__main__] block: without the key it prints a warning, then runs
    [demo] in either case. *)
Definition main : run unit :=
  _ ← (if negb (Py.truthy (getenv "OPENAI_API_KEY")) then mret tt else mret tt);
  demo.

End Defs.
End Demo.

(** ** main.py: the console menu *)

Module PyText.

(** The characters of a [str], each as the string of its bytes. *)
Fixpoint chars (s : string) : list string :=
  match s with
  | EmptyString => []
  | String c s' =>
      match s' with
      | EmptyString => [String c EmptyString]
      | String c' _ =>
          if Py.is_continuation c' then
            match chars s' with
            | char :: rest => String c char :: rest
            | [] => [String c EmptyString]
            end
          else String c EmptyString :: chars s'
      end
  end.

(** The continuation bytes of a character add six bits each. *)
Fixpoint continue (acc : N) (bytes : string) : N :=
  match bytes with
  | EmptyString => acc
  | String c bytes' => continue (acc * 64 + (N_of_ascii c - 128))%N bytes'
  end.

(** [ord(char)]: the code point the bytes of one character encode. *)
Definition code_point (char : string) : N :=
  match char with
  | EmptyString => 0%N
  | String c bytes =>
      let b := N_of_ascii c in
      continue (if (b <? 128)%N then b
                else if (b <? 224)%N then (b - 192)%N
                else if (b <? 240)%N then (b - 224)%N
                else (b - 240)%N)
               bytes
  end.

(** [char.isspace()], the characters [str.strip()] removes: U+0009 to
    U+000D, U+001C to U+0020, U+0085, U+00A0, U+1680, U+2000 to U+200A,
    U+2028, U+2029, U+202F, U+205F and U+3000. *)
Definition is_space (char : string) : bool :=
  let n := code_point char in
  ((9 <=? n) && (n <=? 13) || (28 <=? n) && (n <=? 32) ||
   (n =? 133) || (n =? 160) || (n =? 5760) ||
   (8192 <=? n) && (n <=? 8202) ||
   (n =? 8232) || (n =? 8233) || (n =? 8239) || (n =? 8287) ||
   (n =? 12288))%N%bool.

Fixpoint drop_spaces (l : list string) : list string :=
  match l with
  | [] => []
  | char :: l' => if is_space char then drop_spaces l' else l
  end.

Fixpoint join (l : list string) : string :=
  match l with
  | [] => EmptyString
  | char :: l' => char +:+ join l'
  end.

(** [s.strip()] *)
Definition strip (s : string) : string :=
  join (rev (drop_spaces (rev (drop_spaces (chars s))))).

End PyText.

Module Console.
Section Defs.
Context `{W : World}.

(** What [input()] raises when standard input is exhausted: [EOFError],
    an [Exception] like any other to the code around it. *)
Definition EOFError : exn := Exc (LibraryError "EOFError").

(** The question branch of the menu, after [input()] returned [query]. *)
Definition ask (handler : QueryHandler.RAGQueryHandler) (query : string)
    : run unit :=
  if String.eqb query "" then mret tt
  else _ ← QueryHandler.handle_query handler query true; mret tt.

(** [search_similar_cases(handler)], after [input()] returned [query]. *)
Definition search_similar_cases (handler : QueryHandler.RAGQueryHandler)
    (query : string) : run unit :=
  if String.eqb query "" then mret tt
  else _ ← QueryHandler.search_similar_cases handler query 5; mret tt.

(** [show_relevant_documents(handler)], after [input()] returned [query]. *)
Definition show_relevant_documents (handler : QueryHandler.RAGQueryHandler)
    (query : string) : run unit :=
  if String.eqb query "" then mret tt
  else _ ← QueryHandler.get_relevant_documents handler query 3; mret tt.

(** The [while True] loop of [interactive_mode]; [lines] are the lines
    [input()] will return, in order. *)
Fixpoint menu_loop (data_folder : string)
    (handler : QueryHandler.RAGQueryHandler) (lines : list string) : run unit :=
  match lines with
  | [] => raise EOFError
  | line :: rest =>
      let choice := PyText.strip line in
      if String.eqb choice "1" then
        match rest with
        | [] => raise EOFError
        | query :: rest' =>
            _ ← ask handler query; menu_loop data_folder handler rest'
        end
      else if String.eqb choice "2" then
        match rest with
        | [] => raise EOFError
        | query :: rest' =>
            _ ← search_similar_cases handler query;
            menu_loop data_folder handler rest'
        end
      else if String.eqb choice "3" then
        match rest with
        | [] => raise EOFError
        | query :: rest' =>
            _ ← show_relevant_documents handler query;
            menu_loop data_folder handler rest'
        end
      else if String.eqb choice "4" then
        match rest with
        | [] => raise EOFError
        | answer :: rest' =>
            let confirm := Py.lower (PyText.strip answer) in
            if String.eqb confirm "yes" then
              _ ← Main.initialize_system data_folder true;
              handler' ← QueryHandler.init "faiss_index" "gpt-4o-mini";
              menu_loop data_folder handler' rest'
            else menu_loop data_folder handler rest'
        end
      else if String.eqb choice "5" then mret tt
      else menu_loop data_folder handler rest
  end.

(** [interactive_mode], reading [lines] from standard input. *)
Definition interactive_mode (lines : list string) (data_folder : string)
    : run unit :=
  handler ← QueryHandler.init "faiss_index" "gpt-4o-mini";
  menu_loop data_folder handler lines.

(** The console program: [main] with its menu loop. *)
Definition program (lines : list string) : run unit :=
  Main.main (interactive_mode lines).

End Defs.
End Console.

(** ** Reference functions

    What the loops compute, written as plain list functions; the theorems
    below relate the code to them. *)

Section Reference.
Context `{W : World}.

(** The documents one file of the walk contributes: none unless its
    lower-cased extension has a loader and the loader succeeds. *)
Definition documents_of_file (self : LoadDocuments.DocumentLoader)
    (root file : string) : list Document :=
  let file_ext := LoadDocuments.file_ext_of file in
  let file_path := path_join root file in
  match LoadDocuments.supported_extensions self !! file_ext with
  | Some loader_class =>
      match loader_load loader_class file_path with
      | inr parsed => map (LoadDocuments.tag_document file file_path file_ext) parsed
      | inl _ => []
      end
  | None => []
  end.

(** What [load_all_documents] gathers from a walk: the contributions of
    the files, directory by directory, in the order of the two loops. *)
Definition loaded_documents (self : LoadDocuments.DocumentLoader)
    : list Document :=
  flat_map (fun '(root, _, files) => flat_map (documents_of_file self root) files)
    (os_walk (LoadDocuments.data_folder self)).

(** The same for [load_documents_by_type]: only the files whose lower-cased
    extension equals the lower-cased requested type are tried. *)
Definition loaded_documents_by_type (self : LoadDocuments.DocumentLoader)
    (file_type : string) : list Document :=
  flat_map
    (fun '(root, _, files) =>
       flat_map
         (fun file =>
            if String.eqb (Py.lower (snd (Py.splitext file))) (Py.lower file_type)
            then documents_of_file self root file else [])
         files)
    (os_walk (LoadDocuments.data_folder self)).

(** The keys of the dictionary [supported_extensions]. *)
Definition supported_extension_list : list string :=
  [".txt"; ".pdf"; ".xlsx"; ".xls"; ".docx"; ".doc"; ".csv"].

(** The entries the keyword searches surface, in keyword order and, within
    a keyword, in the order the search returned them. *)
Definition surfaced (hits : string -> list Document) (keywords : list string)
    : list QueryHandler.KeywordResult :=
  flat_map
    (fun keyword =>
       map (fun doc =>
              QueryHandler.mkKeywordResult (page_content doc) (metadata doc) keyword)
           (hits keyword))
    keywords.

(** First-seen filter on the hash of the content, as the loop keys it. *)
Fixpoint first_seen (seen : gset Z) (l : list QueryHandler.KeywordResult)
    : list QueryHandler.KeywordResult :=
  match l with
  | [] => []
  | x :: l' =>
      if decide (py_hash (QueryHandler.kw_content x) ∈ seen) then first_seen seen l'
      else x :: first_seen ({[py_hash (QueryHandler.kw_content x)]} ∪ seen) l'
  end.

Fixpoint seen_after (seen : gset Z) (l : list QueryHandler.KeywordResult) : gset Z :=
  match l with
  | [] => seen
  | x :: l' => seen_after ({[py_hash (QueryHandler.kw_content x)]} ∪ seen) l'
  end.



End Reference.

(** ** Reference functions for the remaining code *)

Section MoreReference.
Context `{W : World}.

(** The loader call one file of the walk causes: one for a file whose
    lower-cased extension has a loader, none for any other file. *)
Definition calls_of_file (self : LoadDocuments.DocumentLoader)
    (root file : string) : list event :=
  match LoadDocuments.supported_extensions self !! LoadDocuments.file_ext_of file with
  | Some loader_class => [LoaderLoad loader_class (path_join root file)]
  | None => []
  end.

Definition loader_calls (self : LoadDocuments.DocumentLoader) : list event :=
  flat_map (fun '(root, _, files) => flat_map (calls_of_file self root) files)
    (os_walk (LoadDocuments.data_folder self)).

(** [doc.metadata.get("file_type") == file_ext] *)
Definition has_file_type (file_ext : string) (doc : Document) : bool :=
  bool_decide (metadata doc !! "file_type" = Some file_ext).

(** The keys [load_all_documents] writes. *)
Definition loader_keys : list string := ["source_file"; "source_path"; "file_type"].

(** A run that does not end in [SystemExit]. *)
Definition no_system_exit {A} (r : run A) : Prop :=
  forall code, outcome r <> Raise (SystemExit code).

(** The third-party calls of the menu loop that leave the index alone:
    the handler's construction, and queries with the menu's fixed
    parameters. *)
Definition is_query_call (ev : event) : Prop :=
  ev = NewEmbeddings \/ ev = NewChatLLM "gpt-4o-mini" \/
  ev = LoadLocal "faiss_index" \/
  (exists query, ev = ChainInvoke "stuff" 5 true query) \/
  (exists query, ev = SimilaritySearchWithScore query 5) \/
  (exists query, ev = SimilaritySearch query 3).

(** A line that confirms the rebuild, and a line that leaves the menu. *)
Definition confirms (line : string) : bool :=
  String.eqb (Py.lower (PyText.strip line)) "yes".

Definition leaves (line : string) : bool :=
  String.eqb (PyText.strip line) "5".

End MoreReference.

(** ** Concrete worlds

    Small worlds to run the code in: stores, clients and scores are [unit],
    paths are joined with a slash. *)

Definition sample_world
    (env : gmap string string)
    (exists_ : string -> bool)
    (walk : string -> list (string * list string * list string))
    (load : LoaderClass -> string -> fallible (list Document))
    (hash : string -> Z)
    (embeddings_client : fallible unit)
    (search : string -> Z -> fallible (list Document))
    (invoke : string -> fallible ChainResult) : World :=
  {| VS := unit; Embeddings := unit; LLM := unit; score := unit;
     environ := env;
     path_exists := exists_;
     path_join := fun root file => root +:+ "/" +:+ file;
     os_walk := walk;
     rmtree := fun _ => inr tt;
     py_hash := hash;
     loader_load := load;
     new_embeddings := embeddings_client;
     new_chat_llm := fun _ _ => inr tt;
     split_documents := fun _ documents => inr documents;
     from_documents := fun _ _ => inr tt;
     save_local := fun _ _ => inr tt;
     load_local := fun _ _ => inr tt;
     add_documents := fun _ _ => inr tt;
     similarity_search := fun _ => search;
     similarity_search_with_score := fun _ _ _ => inr [];
     chain_invoke := fun _ => invoke |}.

Definition plain_document (text : string) : Document := mkDocument text ∅.

(** A data folder holding the single file [REPORT.TXT], which parses. *)
Definition upper_case_world : World :=
  sample_world ∅ (fun _ => true)
    (fun folder => [(folder, [], ["REPORT.TXT"])])
    (fun _ _ => inr [plain_document "weld defect"])
    (fun _ => 0) (inr tt) (fun _ _ => inr []) (fun _ => inl (LibraryError "")).

(** No index, no key: the data folder holds [a.txt], and the embedding
    client refuses to start. *)
Definition no_key_world : World :=
  sample_world ∅ (fun path => String.eqb path "./data")
    (fun folder => [(folder, [], ["a.txt"])])
    (fun _ _ => inr [plain_document "weld defect"])
    (fun _ => 0) (inl (LibraryError "api_key"))
    (fun _ _ => inr []) (fun _ => inl (LibraryError "")).

(** A store in which the keywords [A] and [B] both surface the chunk
    [shared]; the hash is the length of the content. *)
Definition two_keyword_world : World :=
  sample_world ∅ (fun _ => true) (fun _ => []) (fun _ _ => inr [])
    (fun content => Z.of_nat (String.length content)) (inr tt)
    (fun keyword _ =>
       if String.eqb keyword "A" then
         inr [plain_document "shared"; plain_document "only under A"]
       else if String.eqb keyword "B" then
         inr [plain_document "under B"; plain_document "shared"]
       else inr [])
    (fun _ => inl (LibraryError "")).

(** A chain that answers with one short source chunk. *)
Definition short_chunk_world : World :=
  sample_world ∅ (fun _ => true) (fun _ => []) (fun _ _ => inr [])
    (fun _ => 0) (inr tt) (fun _ _ => inr [])
    (fun _ => inr (mkChainResult "see weld_defect.txt"
                     (Some [mkDocument "weld defect"
                              {[ "source_file" := "weld_defect.txt";
                                 "file_type" := ".txt" ]}]))).

(** [text * n] *)
Fixpoint repeat_text (n : nat) (text : string) : string :=
  match n with
  | O => ""
  | S n' => text +:+ repeat_text n' text
  end.

(** A chunk of 240 Japanese characters. *)
Definition long_chunk : string := repeat_text 120 "溶接".

(** A chain that answers with that chunk as its one source. *)
Definition long_chunk_world : World :=
  sample_world ∅ (fun _ => true) (fun _ => []) (fun _ _ => inr [])
    (fun _ => 0) (inr tt) (fun _ _ => inr [])
    (fun _ => inr (mkChainResult "weld_defect.txt を参照"
                     (Some [mkDocument long_chunk
                              {[ "source_file" := "weld_defect.txt";
                                 "file_type" := ".txt" ]}]))).



(** A handler over a loaded store, and one without, in a sample world. *)
Definition loaded_handler (W : World) (vs : @VS W) (emb : @Embeddings W)
    (llm : @LLM W) : @QueryHandler.RAGQueryHandler W :=
  QueryHandler.mkRAGQueryHandler "faiss_index" emb llm (Some vs).

Definition unloaded_handler (W : World) (emb : @Embeddings W) (llm : @LLM W)
    : @QueryHandler.RAGQueryHandler W :=
  QueryHandler.mkRAGQueryHandler "faiss_index" emb llm None.

Definition two_keyword_hits (keyword : string) : list Document :=
  if String.eqb keyword "A" then
    [plain_document "shared"; plain_document "only under A"]
  else [plain_document "under B"; plain_document "shared"].

(** Worlds for the index on disk: which paths exist, what removing the
    index, reading it and invoking the chain answer. *)
Definition index_world
    (exists_ : string -> bool)
    (remove : fallible unit)
    (read_index : fallible unit)
    (invoke : string -> fallible ChainResult) : World :=
  {| VS := unit; Embeddings := unit; LLM := unit; score := unit;
     environ := ∅;
     path_exists := exists_;
     path_join := fun root file => root +:+ "/" +:+ file;
     os_walk := fun folder => [(folder, [], ["a.txt"])];
     rmtree := fun _ => remove;
     py_hash := fun _ => 0;
     loader_load := fun _ _ => inr [plain_document "weld defect"];
     new_embeddings := inr tt;
     new_chat_llm := fun _ _ => inr tt;
     split_documents := fun _ documents => inr documents;
     from_documents := fun _ _ => inr tt;
     save_local := fun _ _ => inr tt;
     load_local := fun _ _ => read_index;
     add_documents := fun _ _ => inr tt;
     similarity_search := fun _ _ _ => inr [];
     similarity_search_with_score := fun _ _ _ => inr [];
     chain_invoke := fun _ => invoke |}.

(** The index directory exists but cannot be read. *)
Definition unreadable_index_world : World :=
  index_world (fun _ => true) (inr tt) (inl (LibraryError "corrupt"))
    (fun _ => inl (LibraryError "")).

(** The index exists, the data folder does not. *)
Definition stale_index_world : World :=
  index_world (fun path => String.eqb path "faiss_index") (inr tt) (inr tt)
    (fun _ => inl (LibraryError "rate limit")).

(** The keyword [A] surfaces two chunks; every other search fails. *)
Definition failing_search_world : World :=
  sample_world ∅ (fun _ => true) (fun _ => []) (fun _ _ => inr [])
    (fun content => Z.of_nat (String.length content)) (inr tt)
    (fun keyword _ =>
       if String.eqb keyword "A" then
         inr [plain_document "shared"; plain_document "only under A"]
       else inl (LibraryError "timeout"))
    (fun _ => inl (LibraryError "")).

(** A readable index whose store refuses an empty list of chunks. *)
Definition strict_store_world : World :=
  {| VS := unit; Embeddings := unit; LLM := unit; score := unit;
     environ := ∅;
     path_exists := fun _ => true;
     path_join := fun root file => root +:+ "/" +:+ file;
     os_walk := fun folder => [(folder, [], ["a.txt"])];
     rmtree := fun _ => inr tt;
     py_hash := fun _ => 0;
     loader_load := fun _ _ => inr [plain_document "weld defect"];
     new_embeddings := inr tt;
     new_chat_llm := fun _ _ => inr tt;
     split_documents := fun _ documents => inr documents;
     from_documents := fun _ _ => inr tt;
     save_local := fun _ _ => inr tt;
     load_local := fun _ _ => inr tt;
     add_documents := fun _ chunks =>
       match chunks with
       | [] => inl (LibraryError "no chunks")
       | _ :: _ => inr tt
       end;
     similarity_search := fun _ _ _ => inr [];
     similarity_search_with_score := fun _ _ _ => inr [];
     chain_invoke := fun _ _ => inl (LibraryError "") |}.

(** No index; the data folder exists and holds no file. *)
Definition empty_folder_world : World :=
  sample_world ∅ (fun path => String.eqb path "./data")
    (fun folder => [(folder, [], [])]) (fun _ _ => inr [])
    (fun _ => 0) (inr tt) (fun _ _ => inr []) (fun _ => inl (LibraryError "")).

(** The index exists and its chain answers; the data folder is missing. *)
Definition answering_world : World :=
  index_world (fun path => String.eqb path "faiss_index") (inr tt) (inr tt)
    (fun _ => inr (mkChainResult "再溶接する" (Some [plain_document "weld defect"]))).

(** A builder as [VectorStoreBuilder.__init__] makes it. *)
Definition sample_builder (W : World) (emb : @Embeddings W)
    : @BuildVectorstore.VectorStoreBuilder W :=
  BuildVectorstore.mkVectorStoreBuilder "faiss_index" emb (mkTextSplitter 1000 200).

(** * Properties *)

(** ** Runs *)

Section RunFacts.

Lemma run_eta {A} (r : run A) : Run (trace r) (outcome r) = r.
Proof. by destruct r. Qed.

Lemma bind_mret_l {A B} (a : A) (f : A -> run B) : (mret a ≫= f) = f a.
Proof. unfold mbind, run_bind, mret, run_ret; simpl. apply run_eta. Qed.

Lemma bind_ok {A B} (m : run A) (f : A -> run B) (a : A) :
  outcome m = Ok a ->
  (m ≫= f) = Run (trace m ++ trace (f a)) (outcome (f a)).
Proof. intros H. unfold mbind, run_bind. by rewrite H. Qed.

Lemma bind_run_ok {A B} (t : list event) (a : A) (f : A -> run B) :
  (Run t (Ok a) ≫= f) = Run (t ++ trace (f a)) (outcome (f a)).
Proof. reflexivity. Qed.

(** A loop whose every step appends to the accumulator computes a
    [flat_map]. *)
Lemma for_each_appends {A B} (g : A -> list B) (step : list B -> A -> run (list B))
    (xs : list A) :
  (forall acc x, In x xs -> outcome (step acc x) = Ok (acc ++ g x)) ->
  forall acc, outcome (for_each xs step acc) = Ok (acc ++ flat_map g xs).
Proof.
  induction xs as [|x xs IH]; intros Hstep acc; simpl.
  - by rewrite app_nil_r.
  - rewrite (bind_ok _ _ _ (Hstep acc x (or_introl eq_refl))); simpl.
    rewrite IH; [by rewrite <- app_assoc|].
    intros acc' y Hy. apply Hstep. by right.
Qed.

End RunFacts.

(** ** The document loader *)

Section LoaderFacts.
Context `{W : World}.

Import LoadDocuments.

Lemma supported_extensions_keys (folder e : string) :
  is_Some (supported_extensions (init folder) !! e) <-> In e supported_extension_list.
Proof.
  split.
  - intros [cls H]. simpl in H.
    repeat (rewrite lookup_insert in H; case_decide; [subst; simpl; tauto|]).
    by rewrite lookup_empty in H.
  - intros Hin. simpl in Hin.
    repeat (destruct Hin as [<-|Hin]; [eexists; vm_compute; reflexivity|]).
    destruct Hin.
Qed.

Lemma supported_extensions_lower (s : string) :
  In s supported_extension_list -> Py.lower s = s.
Proof.
  intros Hin. simpl in Hin.
  repeat (destruct Hin as [<-|Hin]; [reflexivity|]). destruct Hin.
Qed.

Lemma tag_document_metadata (file file_path file_ext : string) (doc : Document) :
  let d := tag_document file file_path file_ext doc in
  metadata d !! "source_file" = Some file /\
  metadata d !! "source_path" = Some file_path /\
  metadata d !! "file_type" = Some file_ext /\
  page_content d = page_content doc.
Proof.
  simpl. repeat split.
  - rewrite lookup_insert_ne by done. rewrite lookup_insert_ne by done.
    apply lookup_insert_eq.
  - rewrite lookup_insert_ne by done. apply lookup_insert_eq.
  - apply lookup_insert_eq.
Qed.

Lemma load_and_tag_outcome (self : DocumentLoader) (acc : list Document)
    (root file : string) :
  outcome
    (try_except
       (load_and_tag self acc file (path_join root file) (file_ext_of file))
       (fun _ => mret acc))
  = Ok (acc ++ documents_of_file self root file).
Proof.
  unfold load_and_tag, _load_single_file, documents_of_file.
  destruct (supported_extensions self !! file_ext_of file) as [cls|]; simpl.
  - destruct (loader_load cls (path_join root file)) as [e|parsed]; simpl.
    + by rewrite app_nil_r.
    + reflexivity.
  - by rewrite app_nil_r.
Qed.

Lemma load_all_step_outcome (self : DocumentLoader) (root : string)
    (acc : list Document) (file : string) :
  outcome (load_all_step self root acc file)
  = Ok (acc ++ documents_of_file self root file).
Proof.
  unfold load_all_step. case_decide as Hsup.
  - apply load_and_tag_outcome.
  - unfold documents_of_file.
    destruct (supported_extensions self !! file_ext_of file) eqn:E.
    + exfalso. apply Hsup. eauto.
    + simpl. by rewrite app_nil_r.
Qed.

Lemma load_by_type_step_outcome (self : DocumentLoader) (file_type root : string)
    (acc : list Document) (file : string) :
  outcome (load_by_type_step self file_type root acc file)
  = Ok (acc ++
        if String.eqb (Py.lower (snd (Py.splitext file))) (Py.lower file_type)
        then documents_of_file self root file else []).
Proof.
  unfold load_by_type_step. fold (file_ext_of file).
  destruct (String.eqb (file_ext_of file) (Py.lower file_type)).
  - apply load_and_tag_outcome.
  - simpl. by rewrite app_nil_r.
Qed.

(** The loader never raises; it returns what the walk contributes. *)
Lemma load_all_documents_outcome (self : DocumentLoader) :
  outcome (load_all_documents self)
  = Ok (if path_exists (data_folder self) then loaded_documents self else []).
Proof.
  unfold load_all_documents, loaded_documents.
  destruct (path_exists (data_folder self)); simpl; [|reflexivity].
  rewrite (for_each_appends
             (fun '(root, _, files) => flat_map (documents_of_file self root) files));
    [reflexivity|].
  intros acc [[root dirs] files] _.
  apply for_each_appends. intros acc' file _. apply load_all_step_outcome.
Qed.

Lemma load_documents_by_type_outcome (self : DocumentLoader) (file_type : string) :
  outcome (load_documents_by_type self file_type)
  = Ok (if path_exists (data_folder self)
        then loaded_documents_by_type self file_type else []).
Proof.
  unfold load_documents_by_type, loaded_documents_by_type.
  destruct (path_exists (data_folder self)); simpl; [|reflexivity].
  rewrite (for_each_appends
             (fun '(root, _, files) =>
                flat_map
                  (fun file =>
                     if String.eqb (Py.lower (snd (Py.splitext file)))
                          (Py.lower file_type)
                     then documents_of_file self root file else [])
                  files));
    [reflexivity|].
  intros acc [[root dirs] files] _.
  apply for_each_appends. intros acc' file _. apply load_by_type_step_outcome.
Qed.

(** Membership in the contribution of one file. *)
Lemma in_documents_of_file (self : DocumentLoader) (root file : string)
    (d : Document) :
  In d (documents_of_file self root file) <->
  exists cls parsed d0,
    supported_extensions self !! file_ext_of file = Some cls /\
    loader_load cls (path_join root file) = inr parsed /\
    In d0 parsed /\
    d = tag_document file (path_join root file) (file_ext_of file) d0.
Proof.
  unfold documents_of_file.
  destruct (supported_extensions self !! file_ext_of file) as [cls|] eqn:E.
  - destruct (loader_load cls (path_join root file)) as [e|parsed] eqn:L.
    + split; [intros []|]. intros (cls' & parsed & d0 & Hc & Hl & _).
      congruence.
    + rewrite in_map_iff. split.
      * intros (d0 & <- & Hd0). by exists cls, parsed, d0.
      * intros (cls' & parsed' & d0 & Hc & Hl & Hd0 & ->).
        assert (parsed' = parsed) as -> by congruence. by exists d0.
  - split; [intros []|]. intros (cls & parsed & d0 & Hc & _). congruence.
Qed.

Lemma in_loaded_documents (self : DocumentLoader) (d : Document) :
  In d (loaded_documents self) <->
  exists root dirs files file,
    In (root, dirs, files) (os_walk (data_folder self)) /\ In file files /\
    In d (documents_of_file self root file).
Proof.
  unfold loaded_documents. rewrite in_flat_map. split.
  - intros ([[root dirs] files] & Hw & Hd). rewrite in_flat_map in Hd.
    destruct Hd as (file & Hf & Hd). by exists root, dirs, files, file.
  - intros (root & dirs & files & file & Hw & Hf & Hd).
    exists (root, dirs, files). split; [done|]. rewrite in_flat_map. eauto.
Qed.

End LoaderFacts.

Section LoaderClaims.
Context `{W : World}.

Import LoadDocuments.

(** C8 (amended): [load_all_documents] never raises and returns exactly the
    documents parsed from the walked files whose lower-cased extension is
    one of .txt, .pdf, .xlsx, .xls, .docx, .doc, .csv, in walk order; each
    carries [source_file] = the file name, [source_path] = its joined path
    and [file_type] = the lower-cased extension.  A file with another
    extension contributes nothing, a file whose loader fails contributes
    nothing while the rest is still loaded, and a missing folder, an empty
    walk or a batch in which every loader fails gives the empty list. *)
Theorem load_all_documents_supported_files (folder : string) :
  let self := init folder in
  exists docs,
    outcome (load_all_documents self) = Ok docs /\
    docs = (if path_exists folder then loaded_documents self else []) /\
    (forall d, In d docs <->
       path_exists folder = true /\
       exists root dirs files file cls parsed d0,
         In (root, dirs, files) (os_walk folder) /\ In file files /\
         In (Py.lower (snd (Py.splitext file))) supported_extension_list /\
         supported_extensions self !! Py.lower (snd (Py.splitext file)) = Some cls /\
         loader_load cls (path_join root file) = inr parsed /\
         In d0 parsed /\
         d = tag_document file (path_join root file)
               (Py.lower (snd (Py.splitext file))) d0 /\
         page_content d = page_content d0 /\
         metadata d !! "source_file" = Some file /\
         metadata d !! "source_path" = Some (path_join root file) /\
         metadata d !! "file_type" = Some (Py.lower (snd (Py.splitext file)))) /\
    (forall root file,
       ~ In (Py.lower (snd (Py.splitext file))) supported_extension_list ->
       documents_of_file self root file = []) /\
    (forall root file cls e,
       supported_extensions self !! Py.lower (snd (Py.splitext file)) = Some cls ->
       loader_load cls (path_join root file) = inl e ->
       documents_of_file self root file = []) /\
    (path_exists folder = false -> docs = []) /\
    (os_walk folder = [] -> docs = []) /\
    ((forall cls path, exists e, loader_load cls path = inl e) -> docs = []).
Proof.
  intros self.
  exists (if path_exists folder then loaded_documents self else []).
  split; [apply load_all_documents_outcome|]. split; [reflexivity|].
  assert (Hfail : forall root file cls e,
             supported_extensions self !! file_ext_of file = Some cls ->
             loader_load cls (path_join root file) = inl e ->
             documents_of_file self root file = []).
  { intros root file cls e Hc Hl. unfold documents_of_file. by rewrite Hc, Hl. }
  split; [|split; [|split; [|split; [|split]]]].
  - intros d. split.
    + destruct (path_exists folder) eqn:Hex; [|intros []].
      intros Hd. apply in_loaded_documents in Hd.
      destruct Hd as (root & dirs & files & file & Hw & Hf & Hd).
      apply in_documents_of_file in Hd.
      destruct Hd as (cls & parsed & d0 & Hc & Hl & Hd0 & ->).
      split; [done|]. exists root, dirs, files, file, cls, parsed, d0.
      pose proof (tag_document_metadata file (path_join root file)
                    (file_ext_of file) d0) as (H1 & H2 & H3 & H4).
      repeat split; try done.
      apply (supported_extensions_keys folder). eauto.
    + intros (Hex & root & dirs & files & file & cls & parsed & d0
              & Hw & Hf & _ & Hc & Hl & Hd0 & -> & _).
      rewrite Hex. apply in_loaded_documents.
      exists root, dirs, files, file. repeat split; try done.
      apply in_documents_of_file. by exists cls, parsed, d0.
  - intros root file Hns. unfold documents_of_file.
    destruct (supported_extensions self !! file_ext_of file) eqn:E; [|done].
    exfalso. apply Hns. apply (supported_extensions_keys folder). eauto.
  - exact Hfail.
  - by intros ->.
  - intros Hw. destruct (path_exists folder); [|done].
    unfold loaded_documents. change (data_folder self) with folder. by rewrite Hw.
  - intros Hall. destruct (path_exists folder); [|done].
    destruct (loaded_documents self) as [|d l] eqn:E; [done|].
    assert (Hd : In d (loaded_documents self)) by (rewrite E; by left).
    apply in_loaded_documents in Hd.
    destruct Hd as (root & dirs & files & file & _ & _ & Hd).
    apply in_documents_of_file in Hd.
    destruct Hd as (cls & parsed & d0 & _ & Hl & _).
    destruct (Hall cls (path_join root file)) as [e He]. congruence.
Qed.

(** C10: extension matching ignores letter case.  A file whose extension
    differs only in case from a supported one is handed to that
    extension's loader and its documents come back with [file_type] = the
    lower-cased extension; [load_documents_by_type] compares the
    lower-cased extension with the lower-cased requested type. *)
Theorem extension_match_ignores_case (folder : string) :
  let self := init folder in
  (forall file s,
     In s supported_extension_list ->
     Py.lower (snd (Py.splitext file)) = Py.lower s ->
     file_ext_of file = s /\
     supported_extensions self !! file_ext_of file = supported_extensions self !! s) /\
  (forall root dirs files file s cls parsed d0,
     path_exists folder = true ->
     In (root, dirs, files) (os_walk folder) -> In file files ->
     supported_extensions self !! s = Some cls ->
     Py.lower (snd (Py.splitext file)) = Py.lower s ->
     loader_load cls (path_join root file) = inr parsed ->
     In d0 parsed ->
     exists docs d,
       outcome (load_all_documents self) = Ok docs /\ In d docs /\
       page_content d = page_content d0 /\
       metadata d !! "source_file" = Some file /\
       metadata d !! "file_type" = Some (Py.lower (snd (Py.splitext file)))) /\
  (forall file_type,
     outcome (load_documents_by_type self file_type)
     = Ok (if path_exists folder then loaded_documents_by_type self file_type
           else [])) /\
  file_ext_of "REPORT.TXT" = ".txt" /\
  file_ext_of "plan.Pdf" = ".pdf".
Proof.
  intros self.
  assert (Hcase : forall file s,
             In s supported_extension_list ->
             Py.lower (snd (Py.splitext file)) = Py.lower s ->
             file_ext_of file = s).
  { intros file s Hs Hl. unfold file_ext_of. rewrite Hl.
    by apply supported_extensions_lower. }
  split; [|split; [|split; [|split; reflexivity]]].
  - intros file s Hs Hl. split; [by apply Hcase|].
    by rewrite (Hcase file s Hs Hl).
  - intros root dirs files file s cls parsed d0 Hex Hw Hf Hc Hl Hload Hd0.
    assert (Hs : In s supported_extension_list)
      by (apply (supported_extensions_keys folder); eauto).
    pose proof (Hcase file s Hs Hl) as Hext.
    exists (if path_exists folder then loaded_documents self else []),
      (tag_document file (path_join root file) (file_ext_of file) d0).
    split; [apply load_all_documents_outcome|].
    pose proof (tag_document_metadata file (path_join root file)
                  (file_ext_of file) d0) as (H1 & H2 & H3 & H4).
    repeat split; try done.
    rewrite Hex. apply in_loaded_documents.
    exists root, dirs, files, file. repeat split; try done.
    apply in_documents_of_file. exists cls, parsed, d0.
    repeat split; try done. by rewrite Hext.
  - intros file_type. apply load_documents_by_type_outcome.
Qed.

End LoaderClaims.

(** C8, as stated, fails on a file named [REPORT.TXT]: its extension
    [.TXT] is not in the supported set, yet its document is returned, and
    the [file_type] it carries is [.txt], not the file's extension. *)
Lemma load_all_documents_upper_case_extension :
  exists d,
    outcome (@LoadDocuments.load_all_documents upper_case_world
               (LoadDocuments.init "./data")) = Ok [d] /\
    snd (Py.splitext "REPORT.TXT") = ".TXT" /\
    ~ In (snd (Py.splitext "REPORT.TXT")) supported_extension_list /\
    metadata d !! "file_type" = Some ".txt" /\
    metadata d !! "file_type" <> Some (snd (Py.splitext "REPORT.TXT")).
Proof.
  eexists. split; [vm_compute; reflexivity|].
  split; [reflexivity|]. split.
  - vm_compute. intros H. repeat (destruct H as [H|H]; [discriminate H|]).
    destruct H.
  - split; [vm_compute; reflexivity|]. vm_compute. discriminate.
Qed.

(** C10 at [REPORT.TXT] in a one-file folder: the file is loaded although
    its extension is upper-case. *)
Lemma extension_match_ignores_case_witness :
  exists docs d,
    outcome (@LoadDocuments.load_all_documents upper_case_world
               (LoadDocuments.init "./data")) = Ok docs /\
    In d docs /\
    page_content d = "weld defect" /\
    metadata d !! "source_file" = Some "REPORT.TXT" /\
    metadata d !! "file_type" = Some ".txt".
Proof.
  exact (proj1 (proj2 (@extension_match_ignores_case upper_case_world "./data"))
           "./data" [] ["REPORT.TXT"] "REPORT.TXT" ".txt" TextLoader
           [plain_document "weld defect"] (plain_document "weld defect")
           eq_refl (or_introl eq_refl) (or_introl eq_refl) eq_refl eq_refl
           eq_refl (or_introl eq_refl)).
Defined.

(** ** The query handler *)

Section KeywordFacts.
Context `{W : World}.

Import QueryHandler.

Lemma first_seen_app (seen : gset Z) (l1 l2 : list KeywordResult) :
  first_seen seen (l1 ++ l2)
  = first_seen seen l1 ++ first_seen (seen_after seen l1) l2.
Proof.
  revert seen. induction l1 as [|x l1 IH]; intros seen; simpl; [done|].
  case_decide as Hx.
  - rewrite IH.
    by rewrite (subseteq_union_1_L {[py_hash (kw_content x)]} seen)
      by (by apply singleton_subseteq_l).
  - by rewrite IH.
Qed.

Lemma seen_after_app (seen : gset Z) (l1 l2 : list KeywordResult) :
  seen_after seen (l1 ++ l2) = seen_after (seen_after seen l1) l2.
Proof. revert seen. induction l1 as [|x l1 IH]; intros seen; simpl; auto. Qed.

(** The inner loop is the first-seen filter on the tagged documents. *)
Lemma fold_keep_unseen (keyword : string) (docs : list Document)
    (all_results : list KeywordResult) (seen : gset Z) :
  fold_left (keep_unseen keyword) docs (all_results, seen)
  = (all_results ++ first_seen seen (map (tagged keyword) docs),
     seen_after seen (map (tagged keyword) docs)).
Proof.
  revert all_results seen.
  induction docs as [|doc docs IH]; intros all_results seen; simpl.
  - by rewrite app_nil_r.
  - unfold keep_unseen at 2; simpl. case_decide as Hd.
    + rewrite IH.
      by rewrite (subseteq_union_1_L {[py_hash (page_content doc)]} seen)
        by (by apply singleton_subseteq_l).
    + rewrite IH. by rewrite <- app_assoc.
Qed.

(** The outer loop, when every search answers: one search per keyword, in
    the caller's order. *)
Lemma for_each_search_keyword (vs : VS) (k : Z) (hits : string -> list Document)
    (keywords : list string) :
  (forall keyword, In keyword keywords ->
     similarity_search vs keyword k = inr (hits keyword)) ->
  forall all_results seen,
    for_each keywords (search_keyword vs k) (all_results, seen)
    = Run (map (fun keyword => SimilaritySearch keyword k) keywords)
        (Ok (all_results ++ first_seen seen (surfaced hits keywords),
             seen_after seen (surfaced hits keywords))).
Proof.
  induction keywords as [|keyword keywords IH]; intros Hhits all_results seen.
  - cbn. by rewrite app_nil_r.
  - assert (Hstep : search_keyword vs k (all_results, seen) keyword
                    = Run [SimilaritySearch keyword k]
                        (Ok (fold_left (keep_unseen keyword) (hits keyword)
                               (all_results, seen)))).
    { unfold search_keyword. by rewrite (Hhits keyword (or_introl eq_refl)). }
    cbn [for_each]. rewrite Hstep, bind_run_ok.
    rewrite fold_keep_unseen.
    change (surfaced hits (keyword :: keywords))
      with (map (tagged keyword) (hits keyword) ++ surfaced hits keywords).
    rewrite IH by (intros; apply Hhits; by right).
    cbn [trace outcome].
    by rewrite first_seen_app, seen_after_app, <- app_assoc.
Qed.






End KeywordFacts.

Section HandlerClaims.
Context `{W : World}.

Import QueryHandler.

(** C1: while no vector store is loaded, each of the four query operations
    returns normally, without calling the library: the three searches
    return the empty list, and [handle_query] returns the fixed
    not-loaded message with an empty source list. *)
Theorem queries_without_store (self : RAGQueryHandler) (query : string)
    (keywords : list string) (k : Z) (return_sources : bool) :
  vectorstore self = None ->
  search_similar_cases self query k = Run [] (Ok []) /\
  get_relevant_documents self query k = Run [] (Ok []) /\
  search_by_keywords self keywords k = Run [] (Ok []) /\
  handle_query self query return_sources
  = Run [] (Ok (mkQueryResponse not_loaded_message [])).
Proof.
  intros Hnone.
  unfold search_similar_cases, get_relevant_documents, search_by_keywords,
    handle_query.
  rewrite Hnone. repeat split.
Qed.




(** [s[:n]] is a prefix of [s] that holds [min n (len s)] characters and
    ends where a character ends. *)
Lemma slice_to_prefix (n : nat) (s : string) :
  exists rest,
    s = Py.slice_to n s +:+ rest /\
    Py.len (Py.slice_to n s) = Nat.min n (Py.len s) /\
    Py.starts_character rest = true.
Proof.
  revert n. induction s as [|c s IH]; intros n.
  - exists "". by destruct n.
  - cbn [Py.slice_to Py.len]. destruct (Py.is_continuation c) eqn:Hc.
    + destruct (IH n) as (rest & Hs & Hlen & Hrest). exists rest.
      split; [|by cbn [Py.len]; rewrite Hc].
      change (String c s = String c (Py.slice_to n s +:+ rest)). by f_equal.
    + destruct n as [|n].
      * exists (String c s). repeat split. cbn. by rewrite Hc.
      * destruct (IH n) as (rest & Hs & Hlen & Hrest). exists rest.
        split; [|by cbn [Py.len]; rewrite Hc, Hlen].
        change (String c s = String c (Py.slice_to n s +:+ rest)). by f_equal.
Qed.

(** C6 (amended): over a loaded store, when the chain answers with source
    documents and sources were requested, the response carries the chain's
    text and one source entry per source document, in order; the entry's
    [content_preview] is the first 200 characters of the document's
    content (all of it when it is shorter) followed by three dots, its
    [file] and [type] are the document's [source_file] and [file_type]
    metadata (the placeholder when the key is absent). *)
Theorem handle_query_source_previews (self : RAGQueryHandler) (vs : VS)
    (query : string) (result : ChainResult) (docs : list Document) :
  vectorstore self = Some vs ->
  chain_invoke (qa_chain self vs true) query = inr result ->
  source_documents result = Some docs ->
  exists response,
    outcome (handle_query self query true) = Ok response /\
    answer response = result_text result /\
    length (sources response) = length docs /\
    forall (i : nat) doc, docs !! i = Some doc ->
      exists info first_200 rest,
        sources response !! i = Some info /\
        content_preview info = first_200 +:+ "..." /\
        first_200 = Py.slice_to 200 (page_content doc) /\
        page_content doc = first_200 +:+ rest /\
        Py.len first_200 = Nat.min 200 (Py.len (page_content doc)) /\
        Py.starts_character rest = true /\
        file info = default unknown (metadata doc !! "source_file") /\
        type info = default unknown (metadata doc !! "file_type").
Proof.
  intros Hvs Hinvoke Hdocs.
  exists (mkQueryResponse (result_text result) (map source_info docs)).
  split; [|split; [done|split; [apply length_map|]]].
  - unfold handle_query. rewrite Hvs. cbn zeta. rewrite Hinvoke. simpl.
    by rewrite Hdocs.
  - intros i doc Hi. simpl.
    destruct (slice_to_prefix 200 (page_content doc))
      as (rest & Hrest & Hlen & Hboundary).
    exists (source_info doc), (Py.slice_to 200 (page_content doc)), rest.
    split; [|done].
    change (map source_info docs) with (source_info <$> docs).
    by rewrite list_lookup_fmap, Hi.
Qed.

(** C7: over a loaded store, whatever the query and the flag,
    [handle_query] makes exactly one third-party call, the invocation of
    a "stuff" chain whose retriever was built with k = 5, and its result
    is that invocation's answer. *)
Theorem handle_query_retrieves_five (self : RAGQueryHandler) (vs : VS)
    (query : string) (return_sources : bool) :
  vectorstore self = Some vs ->
  trace (handle_query self query return_sources)
  = [ChainInvoke "stuff" 5 return_sources query] /\
  search_kwargs_k (retriever (qa_chain self vs return_sources)) = 5 /\
  retriever_store (retriever (qa_chain self vs return_sources)) = vs /\
  outcome (handle_query self query return_sources)
  = match chain_invoke (qa_chain self vs return_sources) query with
    | inl e => Raise (Exc e)
    | inr result =>
        Ok (mkQueryResponse (result_text result)
              (match return_sources, source_documents result with
               | true, Some docs => map source_info docs
               | _, _ => []
               end))
    end.
Proof.
  intros Hvs. unfold handle_query. rewrite Hvs. cbn zeta.
  destruct (chain_invoke (qa_chain self vs return_sources) query) as [e|result];
    repeat split.
Qed.

End HandlerClaims.

(** C1 at a handler whose store failed to load. *)
Lemma queries_without_store_witness :
  let self := unloaded_handler two_keyword_world tt tt in
  QueryHandler.search_similar_cases self "weld" 5 = Run [] (Ok []) /\
  QueryHandler.get_relevant_documents self "weld" 5 = Run [] (Ok []) /\
  QueryHandler.search_by_keywords self ["A"; "B"] 5 = Run [] (Ok []) /\
  QueryHandler.handle_query self "weld" true
  = Run [] (Ok (QueryHandler.mkQueryResponse QueryHandler.not_loaded_message [])).
Proof.
  exact (@queries_without_store two_keyword_world
           (unloaded_handler two_keyword_world tt tt) "weld" ["A"; "B"] 5 true
           eq_refl).
Defined.



Lemma length_repeat_a (n : nat) : String.length (repeat_text n "a") = n.
Proof.
  induction n as [|n IH]; [done|]. cbn [repeat_text].
  change ("a" +:+ repeat_text n "a") with (String "a" (repeat_text n "a")).
  cbn [String.length]. by rewrite IH.
Qed.

Lemma pigeonhole (f : nat -> Z) (bound : nat) :
  (forall i, 0 <= f i < Z.of_nat bound) ->
  exists i j, (i < j <= bound)%nat /\ f i = f j.
Proof.
  intros Hrange.
  set (P := fun i => Exists (fun j => (i < j)%nat /\ f i = f j) (seq 0 (S bound))).
  destruct (decide (Exists P (seq 0 (S bound)))) as [Hex|Hno].
  - apply Exists_exists in Hex as (i & Hi & Hex).
    apply Exists_exists in Hex as (j & Hj & Hij & Heq).
    apply elem_of_seq in Hj. exists i, j. split; [lia|done].
  - exfalso.
    assert (Hinj : forall i j, i ∈ seq 0 (S bound) -> j ∈ seq 0 (S bound) ->
                     f i = f j -> i = j).
    { intros i j Hi Hj Heq. destruct (decide (i = j)) as [|Hne]; [done|].
      exfalso. apply Hno. apply Exists_exists.
      destruct (decide (i < j)%nat).
      - exists i. split; [done|]. apply Exists_exists. by exists j.
      - exists j. split; [done|]. apply Exists_exists. exists i.
        split; [done|]. split; [lia|done]. }
    assert (Hnodup : NoDup (f <$> seq 0 (S bound))).
    { apply NoDup_fmap_2_strong; [done|apply NoDup_seq]. }
    assert (Hincl : (f <$> seq 0 (S bound)) ⊆ (Z.of_nat <$> seq 0 bound)).
    { intros z Hz. apply list_elem_of_fmap in Hz as (i & -> & _).
      apply list_elem_of_fmap. exists (Z.to_nat (f i)).
      specialize (Hrange i). split; [lia|]. apply elem_of_seq. lia. }
    apply (NoDup_submseteq _ _ Hnodup) in Hincl.
    apply submseteq_length in Hincl.
    rewrite !length_fmap, !length_seq in Hincl. lia.
Qed.

(** Such a collision is no accident of that world: [hash] of a [str] is
    a 64-bit integer, and any such hash gives two different contents one
    value. *)
Lemma py_hash_collides `{W : World} :
  (forall content, - 2 ^ 63 <= py_hash content < 2 ^ 63) ->
  exists c1 c2, c1 <> c2 /\ py_hash c1 = py_hash c2.
Proof.
  intros Hrange.
  remember (Z.to_nat (2 ^ 64)) as bound eqn:Hbound.
  assert (Hb : Z.of_nat bound = 2 ^ 64) by (subst bound; apply Z2Nat.id; lia).
  destruct (pigeonhole (fun i => py_hash (repeat_text i "a") + 2 ^ 63) bound)
    as (i & j & Hij & Heq).
  { intros i. specialize (Hrange (repeat_text i "a")). rewrite Hb.
    change (2 ^ 64) with (2 * 2 ^ 63). lia. }
  exists (repeat_text i "a"), (repeat_text j "a"). split; [|lia].
  intros Hsame. apply (f_equal String.length) in Hsame.
  rewrite !length_repeat_a in Hsame. lia.
Qed.

(** The run behind the witness: the shared chunk comes back once, tagged
    with [A]. *)
Example search_by_keywords_shared_chunk :
  @QueryHandler.search_by_keywords two_keyword_world
    (loaded_handler two_keyword_world tt tt tt) ["A"; "B"] 5
  = Run [SimilaritySearch "A" 5; SimilaritySearch "B" 5]
      (Ok [QueryHandler.mkKeywordResult "shared" ∅ "A";
           QueryHandler.mkKeywordResult "only under A" ∅ "A";
           QueryHandler.mkKeywordResult "under B" ∅ "B"]).
Proof. vm_compute. reflexivity. Qed.

(** C6, as stated, fails on a source chunk whose content is
    [weld defect]: the preview is [weld defect...], not the first 200
    characters of the content. *)
Lemma handle_query_preview_has_dots :
  exists info,
    outcome (@QueryHandler.handle_query short_chunk_world
               (loaded_handler short_chunk_world tt tt tt) "weld" true)
    = Ok (QueryHandler.mkQueryResponse "see weld_defect.txt" [info]) /\
    QueryHandler.content_preview info = "weld defect..." /\
    Py.slice_to 200 "weld defect" = "weld defect" /\
    QueryHandler.content_preview info <> Py.slice_to 200 "weld defect".
Proof.
  eexists. split; [vm_compute; reflexivity|].
  split; [reflexivity|]. split; [reflexivity|]. vm_compute. discriminate.
Qed.

(** C6 (amended) at a chunk of 240 Japanese characters, on which the cut
    at 200 is made. *)
Lemma handle_query_source_previews_witness :
  exists response,
    outcome (@QueryHandler.handle_query long_chunk_world
               (loaded_handler long_chunk_world tt tt tt) "溶接" true)
    = Ok response /\
    QueryHandler.answer response = "weld_defect.txt を参照" /\
    length (QueryHandler.sources response) = 1%nat /\
    forall (i : nat) doc,
      [mkDocument long_chunk
         {[ "source_file" := "weld_defect.txt"; "file_type" := ".txt" ]}] !! i
      = Some doc ->
      exists info first_200 rest,
        QueryHandler.sources response !! i = Some info /\
        QueryHandler.content_preview info = first_200 +:+ "..." /\
        first_200 = Py.slice_to 200 (page_content doc) /\
        page_content doc = first_200 +:+ rest /\
        Py.len first_200 = Nat.min 200 (Py.len (page_content doc)) /\
        Py.starts_character rest = true /\
        QueryHandler.file info
        = default QueryHandler.unknown (metadata doc !! "source_file") /\
        QueryHandler.type info
        = default QueryHandler.unknown (metadata doc !! "file_type").
Proof.
  exact (@handle_query_source_previews long_chunk_world
           (loaded_handler long_chunk_world tt tt tt) tt "溶接" _ _
           eq_refl eq_refl eq_refl).
Defined.

(** The run behind the witness: the chunk has 240 characters in 720
    bytes, and the preview is its first 200 characters and three dots. *)
Example handle_query_long_chunk_preview :
  Py.len long_chunk = 240%nat /\
  String.length long_chunk = 720%nat /\
  outcome (@QueryHandler.handle_query long_chunk_world
             (loaded_handler long_chunk_world tt tt tt) "溶接" true)
  = Ok (QueryHandler.mkQueryResponse "weld_defect.txt を参照"
          [QueryHandler.mkSourceInfo "weld_defect.txt" ".txt"
             (repeat_text 100 "溶接" +:+ "...")]).
Proof. repeat split; vm_compute; reflexivity. Qed.

(** C7 at a sample query. *)
Lemma handle_query_retrieves_five_witness :
  trace (@QueryHandler.handle_query short_chunk_world
           (loaded_handler short_chunk_world tt tt tt) "weld" false)
  = [ChainInvoke "stuff" 5 false "weld"].
Proof.
  exact (proj1 (@handle_query_retrieves_five short_chunk_world
                  (loaded_handler short_chunk_world tt tt tt) tt "weld" false
                  eq_refl)).
Defined.

(** ** The index builder *)

Section BuilderClaims.
Context `{W : World}.

Import BuildVectorstore.

Lemma for_each_trace {A S} (P : event -> Prop) (step : S -> A -> run S)
    (xs : list A) :
  (forall acc x, Forall P (trace (step acc x))) ->
  forall acc, Forall P (trace (for_each xs step acc)).
Proof.
  intros Hstep. induction xs as [|x xs IH]; intros acc; cbn [for_each].
  - constructor.
  - unfold mbind, run_bind. destruct (outcome (step acc x)) as [acc'|e]; simpl.
    + apply Forall_app. split; [apply Hstep|apply IH].
    + apply Hstep.
Qed.

(** Loading documents calls nothing but the loaders. *)
Lemma load_all_documents_trace (self : LoadDocuments.DocumentLoader) :
  Forall is_loader_load (trace (LoadDocuments.load_all_documents self)).
Proof.
  unfold LoadDocuments.load_all_documents.
  destruct (path_exists (LoadDocuments.data_folder self)); simpl; [|constructor].
  apply for_each_trace. intros acc [[root dirs] files].
  apply for_each_trace. intros acc' file.
  unfold LoadDocuments.load_all_step. case_decide; [|constructor].
  unfold try_except, LoadDocuments.load_and_tag, LoadDocuments._load_single_file.
  destruct (LoadDocuments.supported_extensions self !! LoadDocuments.file_ext_of file)
    as [cls|]; simpl; [|constructor].
  destruct (loader_load cls (path_join root file)); simpl;
    repeat constructor; by eexists _, _.
Qed.

(** The splitter every builder is constructed with. *)
Lemma builder_text_splitter (index_path : string) (builder : VectorStoreBuilder) :
  outcome (init index_path) = Ok builder ->
  text_splitter builder = mkTextSplitter 1000 200.
Proof.
  unfold init. destruct new_embeddings as [e|emb]; simpl; [discriminate|].
  by intros [= <-].
Qed.

(** C2: [build_vectorstore] on the empty list raises the [ValueError]
    before any third-party call; [build_vectorstore_from_folder] raises
    its [ValueError] when loading yields no documents, having called
    nothing but the loaders, so no index is built or saved.  On a
    non-empty list neither check fires: [build_vectorstore] goes on to
    split the documents and build the index, and the folder variant goes
    on to construct the builder. *)
Theorem empty_input_aborts_build :
  (forall self : VectorStoreBuilder,
     build_vectorstore self []
     = Run [] (Raise (Exc (ValueError empty_documents_message)))) /\
  (forall data_folder index_path,
     outcome (LoadDocuments.load_quality_documents data_folder) = Ok [] ->
     outcome (build_vectorstore_from_folder data_folder index_path)
     = Raise (Exc (ValueError (no_documents_message data_folder))) /\
     trace (build_vectorstore_from_folder data_folder index_path)
     = trace (LoadDocuments.load_quality_documents data_folder) /\
     Forall is_loader_load
       (trace (build_vectorstore_from_folder data_folder index_path))) /\
  (forall (self : VectorStoreBuilder) documents,
     documents <> [] ->
     build_vectorstore self documents
     = (split_docs ← split self documents;
        call (FromDocuments split_docs)
          (from_documents split_docs (embeddings self))) /\
     hd_error (trace (build_vectorstore self documents))
     = Some (SplitDocuments (chunk_size (text_splitter self))
               (chunk_overlap (text_splitter self)) documents)) /\
  (forall data_folder index_path documents,
     outcome (LoadDocuments.load_quality_documents data_folder) = Ok documents ->
     documents <> [] ->
     exists rest,
       trace (build_vectorstore_from_folder data_folder index_path)
       = trace (LoadDocuments.load_quality_documents data_folder)
         ++ NewEmbeddings :: rest).
Proof.
  split; [|split; [|split]].
  - reflexivity.
  - intros data_folder index_path Hload.
    assert (Hrun : build_vectorstore_from_folder data_folder index_path
                   = Run (trace (LoadDocuments.load_quality_documents data_folder))
                       (Raise (Exc (ValueError (no_documents_message data_folder))))).
    { unfold build_vectorstore_from_folder. rewrite (bind_ok _ _ _ Hload).
      simpl. by rewrite app_nil_r. }
    rewrite Hrun. simpl. repeat split. apply load_all_documents_trace.
  - intros self [|d documents] Hne; [done|]. split; [reflexivity|].
    unfold build_vectorstore, split, mbind, run_bind, call; simpl.
    by destruct (split_documents (text_splitter self) (d :: documents)).
  - intros data_folder index_path [|d documents] Hload Hne; [done|].
    unfold build_vectorstore_from_folder. rewrite (bind_ok _ _ _ Hload).
    cbn [trace]. unfold init at 1.
    destruct new_embeddings as [e|emb]; cbn.
    + by exists [].
    + eexists. reflexivity.
Qed.

End BuilderClaims.

(** C2 at a data folder that exists and is empty. *)
Lemma empty_input_aborts_build_witness :
  outcome (@BuildVectorstore.build_vectorstore_from_folder two_keyword_world
             "./data" "faiss_index")
  = Raise (Exc (ValueError (BuildVectorstore.no_documents_message "./data"))) /\
  trace (@BuildVectorstore.build_vectorstore_from_folder two_keyword_world
           "./data" "faiss_index") = [].
Proof.
  destruct (proj1 (proj2 (@empty_input_aborts_build two_keyword_world))
              "./data" "faiss_index" eq_refl) as (Hout & Htrace & _).
  split; [exact Hout|exact Htrace].
Defined.

(** ** The entry points *)

Section StartupClaims.
Context `{W : World}.

(** C9 (amended): when [OPENAI_API_KEY] is unset or empty, the console
    entry point exits with status 1 before any third-party call, whatever
    the menu loop would do; the demo entry point only warns, and runs
    [demo] exactly as it does with the key set. *)
Theorem missing_api_key_at_startup (interactive_mode : string -> run unit) :
  Py.truthy (getenv "OPENAI_API_KEY") = false ->
  Main.main interactive_mode = Run [] (Raise (SystemExit 1)) /\
  Demo.main = Demo.demo.
Proof.
  intros Hkey. split.
  - unfold Main.main. by rewrite Hkey.
  - unfold Demo.main. rewrite Hkey. cbn [negb]. apply (bind_mret_l tt).
Qed.

(** With the key set, [main] goes on to initialise the system and to enter
    the menu loop. *)
Lemma main_with_api_key (interactive_mode : string -> run unit) :
  Py.truthy (getenv "OPENAI_API_KEY") = true ->
  Main.main interactive_mode
  = (_ ← Main.initialize_system (default "./data" (getenv "QUALITY_DATA_FOLDER"))
           false;
     interactive_mode (default "./data" (getenv "QUALITY_DATA_FOLDER"))).
Proof. intros Hkey. unfold Main.main. by rewrite Hkey. Qed.

End StartupClaims.

(** C9, as stated, fails for the demo entry point: with the key unset, no
    index on disk and one text file in the data folder, it does not exit;
    it loads the file and tries to start the embedding client. *)
Lemma demo_runs_without_api_key :
  @getenv no_key_world "OPENAI_API_KEY" = None /\
  @Demo.main no_key_world
  = Run [LoaderLoad TextLoader "./data/a.txt"; NewEmbeddings] (Ok tt).
Proof. split; vm_compute; reflexivity. Qed.

(** C9 (amended) in that world. *)
Lemma missing_api_key_at_startup_witness :
  @Main.main no_key_world (fun _ => mret tt) = Run [] (Raise (SystemExit 1)) /\
  @Demo.main no_key_world = @Demo.demo no_key_world.
Proof.
  exact (@missing_api_key_at_startup no_key_world (fun _ => mret tt) eq_refl).
Defined.

(** * Further properties of the code *)

(** ** Runs *)

Section MoreRunFacts.

Lemma bind_run_raise {A B} (t : list event) (e : exn) (f : A -> run B) :
  (Run t (Raise e) ≫= f) = Run t (Raise e).
Proof. reflexivity. Qed.

Lemma bind_assoc {A B C} (m : run A) (f : A -> run B) (g : B -> run C) :
  ((m ≫= f) ≫= g) = (m ≫= fun a => f a ≫= g).
Proof.
  destruct m as [t [a|e]]; [|reflexivity].
  rewrite !bind_run_ok. destruct (f a) as [t' [b|e]]; [|reflexivity].
  cbn [trace outcome]. rewrite !bind_run_ok. cbn [trace outcome].
  by rewrite app_assoc.
Qed.

(** A loop over [xs ++ ys] is the loop over [xs] followed by the loop
    over [ys]. *)
Lemma for_each_app {A S} (xs ys : list A) (step : S -> A -> run S) (acc : S) :
  for_each (xs ++ ys) step acc = (for_each xs step acc ≫= for_each ys step).
Proof.
  revert acc. induction xs as [|x xs IH]; intros acc; cbn [for_each app].
  - by rewrite bind_mret_l.
  - rewrite bind_assoc. destruct (step acc x) as [t [acc'|e]]; [|reflexivity].
    by rewrite !bind_run_ok, IH.
Qed.

(** A loop whose steps append, with the calls each step makes. *)
Lemma for_each_runs {A B} (t : A -> list event) (g : A -> list B)
    (step : list B -> A -> run (list B)) (xs : list A) :
  (forall acc x, In x xs -> step acc x = Run (t x) (Ok (acc ++ g x))) ->
  forall acc,
    for_each xs step acc = Run (flat_map t xs) (Ok (acc ++ flat_map g xs)).
Proof.
  induction xs as [|x xs IH]; intros Hstep acc; cbn [for_each flat_map].
  - by rewrite app_nil_r.
  - rewrite (Hstep acc x (or_introl eq_refl)), bind_run_ok.
    rewrite IH by (intros; apply Hstep; by right). cbn [trace outcome].
    by rewrite <- app_assoc.
Qed.

Lemma no_system_exit_call {A} (ev : event) (r : fallible A) :
  no_system_exit (call ev r).
Proof. intros code. unfold call. by destruct r. Qed.

Lemma no_system_exit_bind {A B} (m : run A) (f : A -> run B) :
  no_system_exit m -> (forall a, no_system_exit (f a)) ->
  no_system_exit (m ≫= f).
Proof.
  intros Hm Hf code. destruct m as [t [a|e]].
  - rewrite bind_run_ok. exact (Hf a code).
  - rewrite bind_run_raise. cbn. intros [= ->]. by apply (Hm code).
Qed.

Lemma no_system_exit_try_except {A} (body : run A) (handler : exception -> run A) :
  no_system_exit body -> (forall e, no_system_exit (handler e)) ->
  no_system_exit (try_except body handler).
Proof.
  intros Hb Hh code. unfold try_except.
  destruct body as [t [a|[e|c]]]; cbn [outcome trace];
    [done|exact (Hh e code)|exact (Hb code)].
Qed.

Lemma no_system_exit_for_each {A S} (xs : list A) (step : S -> A -> run S) :
  (forall acc x, no_system_exit (step acc x)) ->
  forall acc, no_system_exit (for_each xs step acc).
Proof.
  intros Hstep. induction xs as [|x xs IH]; intros acc; cbn [for_each].
  - by intros code.
  - by apply no_system_exit_bind.
Qed.

(** A run that does not exit ends normally or in an [Exception]. *)
Lemma no_system_exit_cases {A} (r : run A) :
  no_system_exit r ->
  (exists a, outcome r = Ok a) \/ (exists e, outcome r = Raise (Exc e)).
Proof.
  intros Hr. destruct (outcome r) as [a|[e|code]] eqn:E; eauto.
  by destruct (Hr code).
Qed.

End MoreRunFacts.

(** ** The document loader, further *)

Section MoreLoaderFacts.
Context `{W : World}.

Import LoadDocuments.

Lemma load_all_step_run (self : DocumentLoader) (root : string)
    (acc : list Document) (file : string) :
  load_all_step self root acc file
  = Run (calls_of_file self root file) (Ok (acc ++ documents_of_file self root file)).
Proof.
  unfold load_all_step, calls_of_file, documents_of_file, try_except,
    load_and_tag, _load_single_file.
  case_decide as Hsup.
  - destruct (supported_extensions self !! file_ext_of file) as [cls|];
      [|by destruct Hsup].
    destruct (loader_load cls (path_join root file)) as [e|parsed]; cbn.
    + by rewrite app_nil_r.
    + reflexivity.
  - destruct (supported_extensions self !! file_ext_of file) as [cls|] eqn:E.
    + exfalso. apply Hsup. by exists cls.
    + cbn. by rewrite app_nil_r.
Qed.

(** X1: [load_all_documents] runs one loader per walked file whose
    lower-cased extension has a loader: the class registered for that
    extension, on the joined path, in walk order, whether or not the file
    parses.  It opens no other file and never raises. *)
Theorem load_all_documents_calls (self : DocumentLoader) :
  load_all_documents self
  = Run (if path_exists (data_folder self) then loader_calls self else [])
      (Ok (if path_exists (data_folder self) then loaded_documents self else [])).
Proof.
  unfold load_all_documents, loader_calls, loaded_documents.
  destruct (path_exists (data_folder self)); [|reflexivity]. cbn [negb].
  rewrite (for_each_runs
             (fun '(root, _, files) => flat_map (calls_of_file self root) files)
             (fun '(root, _, files) => flat_map (documents_of_file self root) files));
    [reflexivity|].
  intros acc [[root dirs] files] _.
  apply for_each_runs. intros acc' file _. apply load_all_step_run.
Qed.

Lemma filter_documents_of_file (self : DocumentLoader) (root file e : string) :
  List.filter (has_file_type e) (documents_of_file self root file)
  = if String.eqb (file_ext_of file) e then documents_of_file self root file
    else [].
Proof.
  unfold documents_of_file.
  destruct (supported_extensions self !! file_ext_of file) as [cls|];
    [|by destruct (String.eqb _ _)].
  destruct (loader_load cls (path_join root file)) as [err|parsed];
    [by destruct (String.eqb _ _)|].
  assert (Htag : forall d0,
             has_file_type e
               (tag_document file (path_join root file) (file_ext_of file) d0)
             = String.eqb (file_ext_of file) e).
  { intros d0. unfold has_file_type.
    destruct (tag_document_metadata file (path_join root file)
                (file_ext_of file) d0) as (_ & _ & -> & _).
    destruct (String.eqb_spec (file_ext_of file) e) as [->|Hne].
    - by apply bool_decide_eq_true.
    - apply bool_decide_eq_false. by intros [= ?]. }
  induction parsed as [|d0 parsed IH]; cbn [map List.filter].
  - by destruct (String.eqb _ _).
  - rewrite Htag, IH. by destruct (String.eqb _ _).
Qed.

Lemma filter_flat_map {A B} (p : B -> bool) (f : A -> list B) (l : list A) :
  List.filter p (flat_map f l) = flat_map (fun x => List.filter p (f x)) l.
Proof.
  induction l as [|x l IH]; cbn [flat_map]; [done|].
  by rewrite List.filter_app, IH.
Qed.

Lemma flat_map_ext_in {A B} (f g : A -> list B) (l : list A) :
  (forall x, In x l -> f x = g x) -> flat_map f l = flat_map g l.
Proof.
  induction l as [|x l IH]; intros H; cbn [flat_map]; [done|].
  rewrite (H x (or_introl eq_refl)), IH; [done|].
  intros y Hy. apply H. by right.
Qed.

(** X2: [load_documents_by_type] returns exactly those documents of
    [load_all_documents] whose [file_type] is the lower-cased requested
    type, in the same order. *)
Theorem load_documents_by_type_filters (self : DocumentLoader)
    (file_type : string) :
  exists all,
    outcome (load_all_documents self) = Ok all /\
    outcome (load_documents_by_type self file_type)
    = Ok (List.filter (has_file_type (Py.lower file_type)) all).
Proof.
  exists (if path_exists (data_folder self) then loaded_documents self else []).
  split; [apply load_all_documents_outcome|].
  rewrite load_documents_by_type_outcome.
  destruct (path_exists (data_folder self)); [|reflexivity]. f_equal.
  unfold loaded_documents_by_type, loaded_documents.
  rewrite filter_flat_map. apply flat_map_ext_in.
  intros [[root dirs] files] _. rewrite filter_flat_map.
  apply flat_map_ext_in. intros file _.
  by rewrite filter_documents_of_file.
Qed.

Lemma for_each_skips {A S} (xs : list A) (step : S -> A -> run S) (acc : S) :
  (forall acc x, In x xs -> step acc x = mret acc) ->
  for_each xs step acc = mret acc.
Proof.
  revert acc. induction xs as [|x xs IH]; intros acc Hstep; cbn [for_each].
  - reflexivity.
  - rewrite (Hstep acc x (or_introl eq_refl)), bind_mret_l. apply IH.
    intros acc' y Hy. apply Hstep. by right.
Qed.

(** X3: asking [load_documents_by_type] for a type that has no loader is
    not an error: whatever the folder holds, it returns the empty list
    and runs no loader. *)
Theorem load_documents_by_type_unsupported (folder file_type : string) :
  ~ In (Py.lower file_type) supported_extension_list ->
  load_documents_by_type (init folder) file_type = Run [] (Ok []).
Proof.
  intros Hnone. unfold load_documents_by_type.
  destruct (path_exists (data_folder (init folder))); [|reflexivity].
  cbn [negb]. apply for_each_skips. intros acc [[root dirs] files] _.
  apply for_each_skips. intros acc' file _.
  unfold load_by_type_step.
  destruct (String.eqb_spec (file_ext_of file) (Py.lower file_type)) as [E|E];
    [|reflexivity].
  unfold try_except, load_and_tag, _load_single_file.
  destruct (supported_extensions (init folder) !! file_ext_of file) as [cls|] eqn:L;
    [|reflexivity].
  exfalso. apply Hnone. rewrite <- E.
  apply (supported_extensions_keys folder). by exists cls.
Qed.

Lemma tag_document_other_keys (file file_path file_ext key : string)
    (doc : Document) :
  ~ In key loader_keys ->
  metadata (tag_document file file_path file_ext doc) !! key = metadata doc !! key.
Proof.
  intros Hkey. cbn.
  rewrite !lookup_insert_ne; [done|..]; intros <-; apply Hkey; cbn; tauto.
Qed.

(** X4: the loader changes nothing but its three keys: every returned
    document comes from a document some loader parsed, with the same
    content and the same value under every other metadata key. *)
Theorem loader_keeps_other_metadata (self : DocumentLoader)
    (docs : list Document) (d : Document) :
  outcome (load_all_documents self) = Ok docs ->
  In d docs ->
  exists root file cls parsed d0,
    loader_load cls (path_join root file) = inr parsed /\
    In d0 parsed /\
    page_content d = page_content d0 /\
    forall key, ~ In key loader_keys -> metadata d !! key = metadata d0 !! key.
Proof.
  rewrite load_all_documents_outcome. intros [= <-] Hd.
  destruct (path_exists (data_folder self)); [|destruct Hd].
  apply in_loaded_documents in Hd.
  destruct Hd as (root & dirs & files & file & _ & _ & Hd).
  apply in_documents_of_file in Hd.
  destruct Hd as (cls & parsed & d0 & _ & Hl & Hd0 & ->).
  exists root, file, cls, parsed, d0. repeat split; try done.
  intros key Hkey. by apply tag_document_other_keys.
Qed.

End MoreLoaderFacts.

(** X3 at the type [.md]. *)
Lemma load_documents_by_type_unsupported_witness :
  @LoadDocuments.load_documents_by_type upper_case_world
    (LoadDocuments.init "./data") ".MD" = Run [] (Ok []).
Proof.
  apply (@load_documents_by_type_unsupported upper_case_world "./data" ".MD").
  vm_compute. intros H. repeat (destruct H as [H|H]; [discriminate H|]).
  destruct H.
Defined.

(** X4 at the one document of the folder holding [REPORT.TXT]. *)
Lemma loader_keeps_other_metadata_witness :
  exists root file cls parsed d0,
    @loader_load upper_case_world cls (@path_join upper_case_world root file)
    = inr parsed /\
    In d0 parsed /\
    page_content
      (LoadDocuments.tag_document "REPORT.TXT" "./data/REPORT.TXT" ".txt"
         (plain_document "weld defect"))
    = page_content d0 /\
    forall key, ~ In key loader_keys ->
      metadata
        (LoadDocuments.tag_document "REPORT.TXT" "./data/REPORT.TXT" ".txt"
           (plain_document "weld defect")) !! key
      = metadata d0 !! key.
Proof.
  apply (@loader_keeps_other_metadata upper_case_world
           (LoadDocuments.init "./data")
           [LoadDocuments.tag_document "REPORT.TXT" "./data/REPORT.TXT" ".txt"
              (plain_document "weld defect")]).
  - vm_compute. reflexivity.
  - by left.
Defined.

(** ** The index builder, further *)

Section MoreBuilderFacts.
Context `{W : World}.

Import BuildVectorstore.

(** [load_vectorstore] never raises: a missing path and a failed read
    both give [None]. *)
Lemma load_vectorstore_run (self : VectorStoreBuilder) :
  load_vectorstore self
  = if path_exists (index_path self) then
      Run [LoadLocal (index_path self)]
        (Ok (match load_local (index_path self) (embeddings self) with
             | inr vs => Some vs
             | inl _ => None
             end))
    else Run [] (Ok None).
Proof.
  unfold load_vectorstore, try_except.
  destruct (path_exists (index_path self)); [|reflexivity]. cbn [negb].
  by destruct (load_local (index_path self) (embeddings self)).
Qed.

(** X5: over a readable index [update_vectorstore] appends: it reads the
    index, splits the new documents and hands the chunks to the store's
    [add_documents]; if that call answers, the store is saved to the index
    path, and if it raises, the exception leaves [update_vectorstore] and
    nothing is saved.  No new index is built, and the method makes no
    empty-input check of its own on this path: whatever the list of new
    documents, its chunks reach [add_documents]. *)
Theorem update_vectorstore_appends (self : VectorStoreBuilder)
    (new_documents chunks : list Document) (vs : VS) :
  path_exists (index_path self) = true ->
  load_local (index_path self) (embeddings self) = inr vs ->
  split_documents (text_splitter self) new_documents = inr chunks ->
  update_vectorstore self new_documents
  = match add_documents vs chunks with
    | inl e =>
        Run [LoadLocal (index_path self);
             SplitDocuments (chunk_size (text_splitter self))
               (chunk_overlap (text_splitter self)) new_documents;
             AddDocuments chunks]
          (Raise (Exc e))
    | inr vs' =>
        Run [LoadLocal (index_path self);
             SplitDocuments (chunk_size (text_splitter self))
               (chunk_overlap (text_splitter self)) new_documents;
             AddDocuments chunks;
             SaveLocal (index_path self)]
          (match save_local vs' (index_path self) with
           | inl e => Raise (Exc e)
           | inr u => Ok u
           end)
    end.
Proof.
  intros Hex Hload Hsplit.
  unfold update_vectorstore. rewrite load_vectorstore_run, Hex, Hload.
  rewrite bind_run_ok. unfold split, save_vectorstore, call.
  rewrite Hsplit, bind_run_ok. cbn [trace outcome].
  destruct (add_documents vs chunks) as [e|vs']; [reflexivity|].
  rewrite bind_run_ok. reflexivity.
Qed.

(** X6: without a usable index [update_vectorstore] is a build followed
    by a save, so an empty list raises the empty-input [ValueError]; in
    that case nothing is built and nothing is saved. *)
Theorem update_vectorstore_without_index (self : VectorStoreBuilder)
    (new_documents : list Document) :
  (path_exists (index_path self) = false \/
   exists e, load_local (index_path self) (embeddings self) = inl e) ->
  trace (load_vectorstore self)
  = (if path_exists (index_path self) then [LoadLocal (index_path self)] else []) /\
  update_vectorstore self new_documents
  = (_ ← load_vectorstore self;
     vectorstore ← build_vectorstore self new_documents;
     save_vectorstore self vectorstore) /\
  update_vectorstore self []
  = Run (trace (load_vectorstore self))
      (Raise (Exc (ValueError empty_documents_message))).
Proof.
  intros Hno.
  assert (Hload : load_vectorstore self
                  = Run (if path_exists (index_path self)
                         then [LoadLocal (index_path self)] else [])
                      (Ok None)).
  { rewrite load_vectorstore_run.
    destruct Hno as [->|[e ->]]; [reflexivity|].
    by destruct (path_exists (index_path self)). }
  unfold update_vectorstore. rewrite Hload, !bind_run_ok. cbn [trace outcome].
  split; [reflexivity|]. split; [reflexivity|].
  cbn. by rewrite app_nil_r.
Qed.

Lemma not_in_loader_trace (self : LoadDocuments.DocumentLoader) (ev : event) :
  ~ is_loader_load ev -> ~ In ev (trace (LoadDocuments.load_all_documents self)).
Proof.
  intros Hev Hin. apply Hev.
  pose proof (load_all_documents_trace self) as Hall.
  rewrite Forall_forall in Hall. apply Hall. by apply list_elem_of_In.
Qed.

(** The folder build, by the answers it gets. *)
Lemma build_vectorstore_from_folder_run (data_folder index_path : string) :
  build_vectorstore_from_folder data_folder index_path
  = let loading := LoadDocuments.load_quality_documents data_folder in
    match outcome loading with
    | Raise e => Run (trace loading) (Raise e)
    | Ok [] =>
        Run (trace loading)
          (Raise (Exc (ValueError (no_documents_message data_folder))))
    | Ok (d :: documents) =>
        match new_embeddings with
        | inl e => Run (trace loading ++ [NewEmbeddings]) (Raise (Exc e))
        | inr emb =>
            match split_documents (mkTextSplitter 1000 200) (d :: documents) with
            | inl e =>
                Run (trace loading
                     ++ [NewEmbeddings; SplitDocuments 1000 200 (d :: documents)])
                  (Raise (Exc e))
            | inr chunks =>
                match from_documents chunks emb with
                | inl e =>
                    Run (trace loading
                         ++ [NewEmbeddings; SplitDocuments 1000 200 (d :: documents);
                             FromDocuments chunks])
                      (Raise (Exc e))
                | inr vs =>
                    Run (trace loading
                         ++ [NewEmbeddings; SplitDocuments 1000 200 (d :: documents);
                             FromDocuments chunks; SaveLocal index_path])
                      (match save_local vs index_path with
                       | inl e => Raise (Exc e)
                       | inr _ => Ok vs
                       end)
                end
            end
        end
    end.
Proof.
  unfold build_vectorstore_from_folder. cbn zeta.
  destruct (LoadDocuments.load_quality_documents data_folder) as [tl [docs|e]];
    [|reflexivity].
  rewrite bind_run_ok. cbn [trace outcome].
  destruct docs as [|d documents]; [cbn; by rewrite app_nil_r|].
  unfold init, build_vectorstore, split, save_vectorstore, call.
  destruct new_embeddings as [e|emb]; [reflexivity|]. cbn.
  destruct (split_documents (mkTextSplitter 1000 200) (d :: documents))
    as [e|chunks]; [reflexivity|]. cbn.
  destruct (from_documents chunks emb) as [e|vs]; [reflexivity|]. cbn.
  by destruct (save_local vs index_path).
Qed.

(** X7: when [build_vectorstore_from_folder] returns a store, the folder
    gave at least one document, the documents were split with chunk size
    1000 and overlap 200, the returned store is the one built from the
    chunks, and it was saved under the index path: after the loaders the
    run is exactly the four calls, in that order. *)
Theorem build_from_folder_success (data_folder index_path : string) (vs : VS) :
  outcome (build_vectorstore_from_folder data_folder index_path) = Ok vs ->
  exists documents emb chunks,
    outcome (LoadDocuments.load_quality_documents data_folder) = Ok documents /\
    documents <> [] /\
    new_embeddings = inr emb /\
    split_documents (mkTextSplitter 1000 200) documents = inr chunks /\
    from_documents chunks emb = inr vs /\
    save_local vs index_path = inr tt /\
    trace (build_vectorstore_from_folder data_folder index_path)
    = trace (LoadDocuments.load_quality_documents data_folder)
      ++ [NewEmbeddings; SplitDocuments 1000 200 documents;
          FromDocuments chunks; SaveLocal index_path].
Proof.
  rewrite build_vectorstore_from_folder_run. cbn zeta.
  destruct (outcome (LoadDocuments.load_quality_documents data_folder))
    as [[|d documents]|e]; [discriminate| |discriminate].
  destruct new_embeddings as [e|emb]; [discriminate|].
  destruct (split_documents (mkTextSplitter 1000 200) (d :: documents))
    as [e|chunks] eqn:Hsplit; [discriminate|].
  destruct (from_documents chunks emb) as [e|vs0] eqn:Hfrom; [discriminate|].
  destruct (save_local vs0 index_path) as [e|[]] eqn:Hsave; [discriminate|].
  cbn [outcome trace]. intros [= <-].
  exists (d :: documents), emb, chunks. by repeat split.
Qed.

(** X8: [build_vectorstore_from_folder] saves nothing it has not built:
    if the run reaches [save_local] at all, it is for the given index
    path, after a non-empty load, a successful split and a successful
    [from_documents]. *)
Theorem build_from_folder_saves_built_index (data_folder index_path path : string) :
  In (SaveLocal path) (trace (build_vectorstore_from_folder data_folder index_path)) ->
  path = index_path /\
  exists documents emb chunks vs,
    outcome (LoadDocuments.load_quality_documents data_folder) = Ok documents /\
    documents <> [] /\
    new_embeddings = inr emb /\
    split_documents (mkTextSplitter 1000 200) documents = inr chunks /\
    from_documents chunks emb = inr vs.
Proof.
  rewrite build_vectorstore_from_folder_run. cbn zeta.
  assert (Hload : ~ In (SaveLocal path)
                      (trace (LoadDocuments.load_quality_documents data_folder))).
  { apply not_in_loader_trace. by intros (cls & p & [=]). }
  assert (Hsplit : forall l, In (SaveLocal path)
                     (trace (LoadDocuments.load_quality_documents data_folder) ++ l) ->
                   In (SaveLocal path) l).
  { intros l Hin. apply in_app_or in Hin as [Hin|Hin]; [by destruct Hload|done]. }
  destruct (outcome (LoadDocuments.load_quality_documents data_folder))
    as [[|d documents]|e]; cbn [trace]; [by intros ?| |by intros ?].
  destruct new_embeddings as [e|emb]; cbn [trace].
  { intros Hin%Hsplit. cbn in Hin. by destruct Hin as [[=]|[]]. }
  destruct (split_documents (mkTextSplitter 1000 200) (d :: documents))
    as [e|chunks] eqn:Hchunks; cbn [trace].
  { intros Hin%Hsplit. cbn in Hin. by destruct Hin as [[=]|[[=]|[]]]. }
  destruct (from_documents chunks emb) as [e|vs] eqn:Hfrom; cbn [trace].
  { intros Hin%Hsplit. cbn in Hin. by destruct Hin as [[=]|[[=]|[[=]|[]]]]. }
  intros Hin%Hsplit. cbn in Hin.
  destruct Hin as [[=]|[[=]|[[=]|[[= ->]|[]]]]].
  split; [done|]. exists (d :: documents), emb, chunks, vs. by repeat split.
Qed.

End MoreBuilderFacts.

(** X5 at one new document, which the store takes. *)
Lemma update_vectorstore_appends_witness :
  @BuildVectorstore.update_vectorstore upper_case_world
    (sample_builder upper_case_world tt) [plain_document "bolt torque"]
  = Run [LoadLocal "faiss_index";
         SplitDocuments 1000 200 [plain_document "bolt torque"];
         AddDocuments [plain_document "bolt torque"];
         SaveLocal "faiss_index"] (Ok tt).
Proof.
  exact (@update_vectorstore_appends upper_case_world
           (sample_builder upper_case_world tt)
           [plain_document "bolt torque"] [plain_document "bolt torque"] tt
           eq_refl eq_refl eq_refl).
Defined.

(** Where the store refuses an empty list of chunks, an update by no
    documents raises the store's exception after the call, and the index
    on disk is left as it was. *)
Example update_vectorstore_refused :
  @BuildVectorstore.update_vectorstore strict_store_world
    (sample_builder strict_store_world tt) []
  = Run [LoadLocal "faiss_index"; SplitDocuments 1000 200 []; AddDocuments []]
      (Raise (Exc (LibraryError "no chunks"))).
Proof. reflexivity. Qed.

(** X6 where no index exists. *)
Lemma update_vectorstore_without_index_witness :
  @BuildVectorstore.update_vectorstore no_key_world
    (sample_builder no_key_world tt) []
  = Run [] (Raise (Exc (ValueError BuildVectorstore.empty_documents_message))).
Proof.
  exact (proj2 (proj2 (@update_vectorstore_without_index no_key_world
                         (sample_builder no_key_world tt) []
                         (or_introl eq_refl)))).
Defined.

(** X7 at the folder holding [REPORT.TXT]. *)
Lemma build_from_folder_success_witness :
  exists documents emb chunks,
    outcome (@LoadDocuments.load_quality_documents upper_case_world "./data")
    = Ok documents /\
    documents <> [] /\
    @new_embeddings upper_case_world = inr emb /\
    @split_documents upper_case_world (mkTextSplitter 1000 200) documents
    = inr chunks /\
    @from_documents upper_case_world chunks emb = inr tt /\
    @save_local upper_case_world tt "faiss_index" = inr tt /\
    trace (@BuildVectorstore.build_vectorstore_from_folder upper_case_world
             "./data" "faiss_index")
    = trace (@LoadDocuments.load_quality_documents upper_case_world "./data")
      ++ [NewEmbeddings; SplitDocuments 1000 200 documents;
          FromDocuments chunks; SaveLocal "faiss_index"].
Proof.
  apply (@build_from_folder_success upper_case_world "./data" "faiss_index" tt).
  vm_compute. reflexivity.
Defined.

(** X8 at the same folder. *)
Lemma build_from_folder_saves_built_index_witness :
  "faiss_index" = "faiss_index" /\
  exists documents emb chunks vs,
    outcome (@LoadDocuments.load_quality_documents upper_case_world "./data")
    = Ok documents /\
    documents <> [] /\
    @new_embeddings upper_case_world = inr emb /\
    @split_documents upper_case_world (mkTextSplitter 1000 200) documents
    = inr chunks /\
    @from_documents upper_case_world chunks emb = inr vs.
Proof.
  apply (@build_from_folder_saves_built_index upper_case_world
           "./data" "faiss_index" "faiss_index").
  vm_compute. tauto.
Defined.

(** ** The query handler, further *)

Section MoreHandlerFacts.
Context `{W : World}.

Import QueryHandler.

(** The constructor, once both clients are created. *)
Lemma handler_init_run (index_path model_name : string) (emb : Embeddings)
    (llm : LLM) :
  new_embeddings = inr emb ->
  new_chat_llm model_name 0 = inr llm ->
  init index_path model_name
  = Run [NewEmbeddings; NewChatLLM model_name; LoadLocal index_path]
      (Ok (mkRAGQueryHandler index_path emb llm
             (match load_local index_path emb with
              | inr vs => Some vs
              | inl _ => None
              end))).
Proof.
  intros Hemb Hllm. unfold init, _load_vectorstore, try_except, call.
  rewrite Hemb, bind_run_ok, Hllm, bind_run_ok.
  by destruct (load_local index_path emb).
Qed.

(** X9: constructing a handler never fails on the index.  If the index
    cannot be read, the constructor still returns, after one read
    attempt, a handler whose [vectorstore] is [None]; it raises only when
    a client cannot be created, and then the index is not touched. *)
Theorem handler_init_survives_unreadable_index (index_path model_name : string) :
  (forall emb llm e,
     new_embeddings = inr emb -> new_chat_llm model_name 0 = inr llm ->
     load_local index_path emb = inl e ->
     exists handler,
       init index_path model_name
       = Run [NewEmbeddings; NewChatLLM model_name; LoadLocal index_path]
           (Ok handler) /\
       vectorstore handler = None) /\
  (forall e, new_embeddings = inl e ->
     init index_path model_name = Run [NewEmbeddings] (Raise (Exc e))) /\
  (forall emb e, new_embeddings = inr emb -> new_chat_llm model_name 0 = inl e ->
     init index_path model_name
     = Run [NewEmbeddings; NewChatLLM model_name] (Raise (Exc e))).
Proof.
  split; [|split].
  - intros emb llm e Hemb Hllm Hload.
    rewrite (handler_init_run _ _ _ _ Hemb Hllm), Hload. by eexists.
  - intros e Hemb. unfold init, call. by rewrite Hemb.
  - intros emb e Hemb Hllm. unfold init, call.
    by rewrite Hemb, bind_run_ok, Hllm.
Qed.

(** X10: the module-level [handle_query], once both clients are created:
    over an unreadable index it returns the not-loaded message instead of
    raising; over a readable one it invokes the chain once, with sources
    requested, and returns the chain's text or passes on its failure. *)
Theorem handle_query_answer_run (query index_path : string) (emb : Embeddings)
    (llm : LLM) :
  new_embeddings = inr emb ->
  new_chat_llm "gpt-4o-mini" 0 = inr llm ->
  handle_query_answer query index_path
  = match load_local index_path emb with
    | inl _ =>
        Run [NewEmbeddings; NewChatLLM "gpt-4o-mini"; LoadLocal index_path]
          (Ok not_loaded_message)
    | inr vs =>
        Run [NewEmbeddings; NewChatLLM "gpt-4o-mini"; LoadLocal index_path;
             ChainInvoke "stuff" 5 true query]
          (match chain_invoke
                   (qa_chain (mkRAGQueryHandler index_path emb llm (Some vs))
                      vs true) query with
           | inl e => Raise (Exc e)
           | inr result => Ok (result_text result)
           end)
    end.
Proof.
  intros Hemb Hllm. unfold handle_query_answer.
  rewrite (handler_init_run _ _ _ _ Hemb Hllm), bind_run_ok.
  destruct (load_local index_path emb) as [e|vs]; [reflexivity|].
  unfold handle_query, call. cbn [vectorstore]. cbn zeta.
  by destruct (chain_invoke _ query).
Qed.

(** X11: [get_relevant_documents] over a loaded store returns one entry
    per hit, in order.  For a hit the loader tagged, the entry carries
    the loader's file name, extension and path; for a hit without
    metadata it carries the placeholders. *)
Theorem get_relevant_documents_reads_loader_tags (self : RAGQueryHandler)
    (vs : VS) (query : string) (k : Z) (docs : list Document) :
  vectorstore self = Some vs ->
  similarity_search vs query k = inr docs ->
  exists out,
    get_relevant_documents self query k = Run [SimilaritySearch query k] (Ok out) /\
    length out = length docs /\
    (forall (i : nat) file file_path file_ext d0,
       docs !! i = Some (LoadDocuments.tag_document file file_path file_ext d0) ->
       out !! i
       = Some (mkRelevantDocument (page_content d0) file file_ext file_path)) /\
    (forall (i : nat) d,
       docs !! i = Some d -> metadata d = ∅ ->
       out !! i = Some (mkRelevantDocument (page_content d) unknown unknown "")).
Proof.
  intros Hvs Hsearch. unfold get_relevant_documents, call.
  rewrite Hvs, Hsearch, bind_run_ok. eexists. split; [reflexivity|].
  split; [apply length_map|]. split.
  - intros i file file_path file_ext d0 Hi.
    match goal with |- map ?f docs !! i = _ => change (map f docs) with (f <$> docs) end.
    rewrite list_lookup_fmap, Hi. cbn [fmap option_fmap option_map]. f_equal.
    destruct (tag_document_metadata file file_path file_ext d0)
      as (H1 & H2 & H3 & H4).
    unfold dict_get. cbn zeta in H1, H2, H3, H4. by rewrite H1, H2, H3, H4.
  - intros i d Hi Hempty.
    match goal with |- map ?f docs !! i = _ => change (map f docs) with (f <$> docs) end.
    rewrite list_lookup_fmap, Hi. cbn [fmap option_fmap option_map]. f_equal.
    unfold dict_get. by rewrite Hempty, !lookup_empty.
Qed.

(** The keyword search, when every search answers. *)
Lemma search_by_keywords_run (self : RAGQueryHandler) (vs : VS)
    (keywords : list string) (k : Z) (hits : string -> list Document) :
  vectorstore self = Some vs ->
  (forall keyword, In keyword keywords ->
     similarity_search vs keyword k = inr (hits keyword)) ->
  search_by_keywords self keywords k
  = Run (map (fun keyword => SimilaritySearch keyword k) keywords)
      (Ok (first_seen ∅ (surfaced hits keywords))).
Proof.
  intros Hvs Hhits. unfold search_by_keywords. rewrite Hvs.
  rewrite (for_each_search_keyword vs k hits keywords Hhits [] ∅).
  rewrite bind_run_ok. cbn. by rewrite app_nil_r.
Qed.

Lemma surfaced_app (hits : string -> list Document) (l1 l2 : list string) :
  surfaced hits (l1 ++ l2) = surfaced hits l1 ++ surfaced hits l2.
Proof. unfold surfaced. apply flat_map_app. Qed.

Lemma seen_after_mono (seen : gset Z) (l : list KeywordResult) (h : Z) :
  h ∈ seen -> h ∈ seen_after seen l.
Proof.
  revert seen. induction l as [|x l IH]; intros seen Hh; cbn; [done|].
  apply IH, elem_of_union. by right.
Qed.

Lemma seen_after_covers (seen : gset Z) (l : list KeywordResult)
    (x : KeywordResult) :
  In x l -> py_hash (kw_content x) ∈ seen_after seen l.
Proof.
  revert seen. induction l as [|y l IH]; intros seen; cbn; [intros []|].
  intros [->|Hx]; [|by apply IH].
  apply seen_after_mono, elem_of_union. left. by apply elem_of_singleton.
Qed.

Lemma first_seen_all_seen (seen : gset Z) (l : list KeywordResult) :
  (forall x, In x l -> py_hash (kw_content x) ∈ seen) -> first_seen seen l = [].
Proof.
  induction l as [|x l IH]; intros Hall; cbn; [done|].
  rewrite decide_True by (apply Hall; by left).
  apply IH. intros y Hy. apply Hall. by right.
Qed.

Lemma surfaced_incl (hits : string -> list Document) (l1 l2 : list string)
    (x : KeywordResult) :
  (forall keyword, In keyword l1 -> In keyword l2) ->
  In x (surfaced hits l1) -> In x (surfaced hits l2).
Proof.
  intros Hincl. unfold surfaced. rewrite !in_flat_map.
  intros (keyword & Hk & Hx). exists keyword. split; [by apply Hincl|done].
Qed.

(** X12: repeating keywords adds nothing.  When every search answers,
    searching a keyword list followed by keywords it already contains
    returns the same entries as searching the list alone. *)
Theorem search_by_keywords_repeats (self : RAGQueryHandler) (vs : VS)
    (keywords extra : list string) (k : Z) (hits : string -> list Document) :
  vectorstore self = Some vs ->
  (forall keyword, In keyword keywords ->
     similarity_search vs keyword k = inr (hits keyword)) ->
  (forall keyword, In keyword extra -> In keyword keywords) ->
  outcome (search_by_keywords self (keywords ++ extra) k)
  = outcome (search_by_keywords self keywords k).
Proof.
  intros Hvs Hhits Hextra.
  rewrite (search_by_keywords_run self vs keywords k hits Hvs Hhits).
  rewrite (search_by_keywords_run self vs (keywords ++ extra) k hits Hvs).
  - cbn [outcome]. f_equal. rewrite surfaced_app, first_seen_app.
    rewrite (first_seen_all_seen _ (surfaced hits extra)); [apply app_nil_r|].
    intros x Hx. apply seen_after_covers.
    by apply (surfaced_incl hits extra keywords).
  - intros keyword Hin. apply Hhits.
    apply in_app_or in Hin as [Hin|Hin]; [done|by apply Hextra].
Qed.

(** X13: a failing search fails the whole call.  If the searches of the
    keywords before [keyword] answer and the search of [keyword] fails,
    [search_by_keywords] raises that failure: the entries gathered so far
    are lost and the later keywords are not searched. *)
Theorem search_by_keywords_failure (self : RAGQueryHandler) (vs : VS)
    (before after : list string) (keyword : string) (k : Z)
    (hits : string -> list Document) (e : exception) :
  vectorstore self = Some vs ->
  (forall kw, In kw before -> similarity_search vs kw k = inr (hits kw)) ->
  similarity_search vs keyword k = inl e ->
  search_by_keywords self (before ++ keyword :: after) k
  = Run (map (fun kw => SimilaritySearch kw k) (before ++ [keyword]))
      (Raise (Exc e)).
Proof.
  intros Hvs Hhits Hfail.
  assert (Hrest : forall st,
             for_each (keyword :: after) (search_keyword vs k) st
             = Run [SimilaritySearch keyword k] (Raise (Exc e))).
  { intros st. cbn [for_each].
    assert (search_keyword vs k st keyword
            = Run [SimilaritySearch keyword k] (Raise (Exc e))) as ->
      by (unfold search_keyword, call; by rewrite Hfail).
    apply bind_run_raise. }
  unfold search_by_keywords. rewrite Hvs, for_each_app.
  rewrite (for_each_search_keyword vs k hits before Hhits [] ∅), bind_run_ok.
  rewrite Hrest. cbn [trace outcome]. rewrite bind_run_raise.
  by rewrite map_app.
Qed.

End MoreHandlerFacts.

(** X9 where the index directory cannot be read. *)
Lemma handler_init_survives_unreadable_index_witness :
  exists handler,
    @QueryHandler.init unreadable_index_world "faiss_index" "gpt-4o-mini"
    = Run [NewEmbeddings; NewChatLLM "gpt-4o-mini"; LoadLocal "faiss_index"]
        (Ok handler) /\
    QueryHandler.vectorstore handler = None.
Proof.
  exact (proj1 (@handler_init_survives_unreadable_index unreadable_index_world
                  "faiss_index" "gpt-4o-mini")
           tt tt (LibraryError "corrupt") eq_refl eq_refl eq_refl).
Defined.

(** X10 where the index directory cannot be read. *)
Lemma handle_query_answer_run_witness :
  @QueryHandler.handle_query_answer unreadable_index_world "weld" "faiss_index"
  = Run [NewEmbeddings; NewChatLLM "gpt-4o-mini"; LoadLocal "faiss_index"]
      (Ok QueryHandler.not_loaded_message).
Proof.
  exact (@handle_query_answer_run unreadable_index_world "weld" "faiss_index"
           tt tt eq_refl eq_refl).
Defined.

(** X11 at the two hits of the keyword [A]. *)
Lemma get_relevant_documents_reads_loader_tags_witness :
  exists out,
    @QueryHandler.get_relevant_documents two_keyword_world
      (loaded_handler two_keyword_world tt tt tt) "A" 3
    = Run [SimilaritySearch "A" 3] (Ok out) /\
    length out = 2%nat /\
    (forall (i : nat) file file_path file_ext d0,
       two_keyword_hits "A" !! i
       = Some (LoadDocuments.tag_document file file_path file_ext d0) ->
       out !! i
       = Some (QueryHandler.mkRelevantDocument (page_content d0) file file_ext
                 file_path)) /\
    (forall (i : nat) d,
       two_keyword_hits "A" !! i = Some d -> metadata d = ∅ ->
       out !! i
       = Some (QueryHandler.mkRelevantDocument (page_content d)
                 QueryHandler.unknown QueryHandler.unknown "")).
Proof.
  exact (@get_relevant_documents_reads_loader_tags two_keyword_world
           (loaded_handler two_keyword_world tt tt tt) tt "A" 3
           (two_keyword_hits "A") eq_refl eq_refl).
Defined.

(** X12 at the keywords [A], [B] followed by [A] again. *)
Lemma search_by_keywords_repeats_witness :
  outcome (@QueryHandler.search_by_keywords two_keyword_world
             (loaded_handler two_keyword_world tt tt tt) (["A"; "B"] ++ ["A"]) 5)
  = outcome (@QueryHandler.search_by_keywords two_keyword_world
               (loaded_handler two_keyword_world tt tt tt) ["A"; "B"] 5).
Proof.
  apply (@search_by_keywords_repeats two_keyword_world
           (loaded_handler two_keyword_world tt tt tt) tt ["A"; "B"] ["A"] 5
           two_keyword_hits eq_refl).
  - intros keyword [<-|[<-|[]]]; reflexivity.
  - intros keyword [<-|[]]. by left.
Defined.

(** X13 at the keywords [A], [B], [C], where the search of [B] fails. *)
Lemma search_by_keywords_failure_witness :
  @QueryHandler.search_by_keywords failing_search_world
    (loaded_handler failing_search_world tt tt tt) (["A"] ++ "B" :: ["C"]) 5
  = Run [SimilaritySearch "A" 5; SimilaritySearch "B" 5]
      (Raise (Exc (LibraryError "timeout"))).
Proof.
  apply (@search_by_keywords_failure failing_search_world
           (loaded_handler failing_search_world tt tt tt) tt ["A"] ["C"] "B" 5
           two_keyword_hits (LibraryError "timeout") eq_refl).
  - intros kw [<-|[]]. reflexivity.
  - reflexivity.
Defined.

(** ** The entry points, further *)

Section MoreStartupFacts.
Context `{W : World}.

Lemma trace_bind_Forall {A B} (P : event -> Prop) (m : run A) (f : A -> run B) :
  Forall P (trace m) -> (forall a, Forall P (trace (f a))) ->
  Forall P (trace (m ≫= f)).
Proof.
  intros Hm Hf. destruct m as [t [a|e]].
  - rewrite bind_run_ok. apply Forall_app. split; [done|apply Hf].
  - by rewrite bind_run_raise.
Qed.

Lemma outcome_bind_ok {A B} (m : run A) (f : A -> run B) (b : B) :
  outcome (m ≫= f) = Ok b -> exists a, outcome m = Ok a /\ outcome (f a) = Ok b.
Proof.
  destruct m as [t [a|e]]; [|by rewrite bind_run_raise].
  rewrite bind_run_ok. intros H. by exists a.
Qed.

(** A failure inside [try: ... except Exception: pass] is swallowed. *)
Lemma try_except_swallows {A} (m : run A) :
  no_system_exit m ->
  try_except (_ ← m; mret tt) (fun _ => mret tt) = Run (trace m) (Ok tt).
Proof.
  intros Hm. destruct m as [t [a|[e|code]]]; unfold try_except.
  - rewrite bind_run_ok. cbn. by rewrite app_nil_r.
  - rewrite bind_run_raise. cbn. by rewrite app_nil_r.
  - by destruct (Hm code).
Qed.

Lemma handle_query_calls (self : QueryHandler.RAGQueryHandler) (query : string)
    (return_sources : bool) :
  no_system_exit (QueryHandler.handle_query self query return_sources) /\
  trace (QueryHandler.handle_query self query return_sources)
  = match QueryHandler.vectorstore self with
    | Some _ => [ChainInvoke "stuff" 5 return_sources query]
    | None => []
    end.
Proof.
  unfold QueryHandler.handle_query, call.
  destruct (QueryHandler.vectorstore self) as [vs|]; [|by split].
  cbn zeta. by destruct (chain_invoke _ query).
Qed.

Lemma search_similar_cases_calls (self : QueryHandler.RAGQueryHandler)
    (query : string) (k : Z) :
  no_system_exit (QueryHandler.search_similar_cases self query k) /\
  trace (QueryHandler.search_similar_cases self query k)
  = match QueryHandler.vectorstore self with
    | Some _ => [SimilaritySearchWithScore query k]
    | None => []
    end.
Proof.
  unfold QueryHandler.search_similar_cases, call.
  destruct (QueryHandler.vectorstore self) as [vs|]; [|by split].
  by destruct (similarity_search_with_score vs query k).
Qed.

Lemma get_relevant_documents_calls (self : QueryHandler.RAGQueryHandler)
    (query : string) (k : Z) :
  trace (QueryHandler.get_relevant_documents self query k)
  = match QueryHandler.vectorstore self with
    | Some _ => [SimilaritySearch query k]
    | None => []
    end.
Proof.
  unfold QueryHandler.get_relevant_documents, call.
  destruct (QueryHandler.vectorstore self) as [vs|]; [|done].
  by destruct (similarity_search vs query k).
Qed.

(** The folder build ends normally or in an [Exception], never in an
    exit. *)
Lemma build_from_folder_no_exit (data_folder index_path : string) :
  no_system_exit
    (BuildVectorstore.build_vectorstore_from_folder data_folder index_path).
Proof.
  intros code. rewrite build_vectorstore_from_folder_run. cbn zeta.
  unfold LoadDocuments.load_quality_documents.
  rewrite load_all_documents_outcome.
  destruct (if path_exists _ then _ else _) as [|d documents]; [done|].
  destruct new_embeddings as [e|emb]; [done|].
  destruct (split_documents _ _) as [e|chunks]; [done|].
  destruct (from_documents chunks emb) as [e|vs]; [done|].
  by destruct (save_local vs index_path).
Qed.

(** The rebuild step of [initialize_system]: it ends normally or exits
    with status 1. *)
Lemma rebuild_outcome (data_folder : string) :
  let rebuild :=
    if negb (path_exists data_folder) then Main.sys_exit 1
    else
      try_except
        (_ ← BuildVectorstore.build_vectorstore_from_folder data_folder "faiss_index";
         mret tt)
        (fun _ => Main.sys_exit 1) in
  outcome rebuild = Ok tt \/ outcome rebuild = Raise (SystemExit 1).
Proof.
  cbn zeta. destruct (path_exists data_folder); [|by right]. cbn [negb].
  pose proof (build_from_folder_no_exit data_folder "faiss_index") as Hno.
  unfold try_except.
  destruct (BuildVectorstore.build_vectorstore_from_folder data_folder "faiss_index")
    as [t [vs|[e|code]]].
  - rewrite bind_run_ok. by left.
  - rewrite bind_run_raise. by right.
  - by destruct (Hno code).
Qed.

(** The rebuild step of [initialize_system], by the data folder and the
    build. *)
Lemma rebuild_run (data_folder : string) :
  (if negb (path_exists data_folder) then Main.sys_exit 1
   else
     try_except
       (_ ← BuildVectorstore.build_vectorstore_from_folder data_folder "faiss_index";
        mret tt)
       (fun _ => Main.sys_exit 1))
  = if path_exists data_folder then
      Run (trace (BuildVectorstore.build_vectorstore_from_folder data_folder
                    "faiss_index"))
        (match outcome (BuildVectorstore.build_vectorstore_from_folder data_folder
                          "faiss_index") with
         | Ok _ => Ok tt
         | Raise _ => Raise (SystemExit 1)
         end)
    else Run [] (Raise (SystemExit 1)).
Proof.
  destruct (path_exists data_folder); [|reflexivity]. cbn [negb].
  pose proof (build_from_folder_no_exit data_folder "faiss_index") as Hno.
  unfold try_except.
  destruct (BuildVectorstore.build_vectorstore_from_folder data_folder "faiss_index")
    as [t [vs|[e|code]]].
  - rewrite bind_run_ok. cbn. by rewrite app_nil_r.
  - rewrite bind_run_raise. cbn. by rewrite app_nil_r.
  - by destruct (Hno code).
Qed.

(** X14: [initialize_system] by cases.  An existing index is used as it
    is, with no call at all, unless a rebuild is forced.  A forced rebuild
    over an existing index removes it first, and a failure of the removal
    is the only exception [initialize_system] lets out.  Whenever the
    index is missing or was removed, the index is rebuilt: a missing data
    folder exits with status 1 before any loader runs; otherwise the
    folder build runs, and the function returns normally if the build
    returns and exits with status 1 if the build raises, which is what
    happens over a folder that yields no document.  So the function
    returns normally, exits with status 1, or raises the removal's
    exception. *)
Theorem initialize_system_outcomes (data_folder : string) (force_rebuild : bool) :
  (path_exists "faiss_index" = true -> force_rebuild = false ->
   Main.initialize_system data_folder force_rebuild = Run [] (Ok tt)) /\
  (forall e, force_rebuild = true -> path_exists "faiss_index" = true ->
     rmtree "faiss_index" = inl e ->
     Main.initialize_system data_folder force_rebuild
     = Run [Rmtree "faiss_index"] (Raise (Exc e))) /\
  (path_exists "faiss_index" = false \/
   (force_rebuild = true /\ rmtree "faiss_index" = inr tt) ->
   (path_exists data_folder = false ->
    Main.initialize_system data_folder force_rebuild
    = Run (if (force_rebuild && path_exists "faiss_index")%bool
           then [Rmtree "faiss_index"] else [])
        (Raise (SystemExit 1))) /\
   (path_exists data_folder = true ->
    Main.initialize_system data_folder force_rebuild
    = Run ((if (force_rebuild && path_exists "faiss_index")%bool
            then [Rmtree "faiss_index"] else [])
           ++ trace (BuildVectorstore.build_vectorstore_from_folder data_folder
                       "faiss_index"))
        (match outcome (BuildVectorstore.build_vectorstore_from_folder data_folder
                          "faiss_index") with
         | Ok _ => Ok tt
         | Raise _ => Raise (SystemExit 1)
         end)) /\
   (path_exists data_folder = true ->
    outcome (LoadDocuments.load_quality_documents data_folder) = Ok [] ->
    Main.initialize_system data_folder force_rebuild
    = Run ((if (force_rebuild && path_exists "faiss_index")%bool
            then [Rmtree "faiss_index"] else [])
           ++ trace (LoadDocuments.load_quality_documents data_folder))
        (Raise (SystemExit 1)))) /\
  (outcome (Main.initialize_system data_folder force_rebuild) = Ok tt \/
   outcome (Main.initialize_system data_folder force_rebuild)
   = Raise (SystemExit 1) \/
   (force_rebuild = true /\ path_exists "faiss_index" = true /\
    exists e, rmtree "faiss_index" = inl e /\
      Main.initialize_system data_folder force_rebuild
      = Run [Rmtree "faiss_index"] (Raise (Exc e)))).
Proof.
  unfold Main.initialize_system, call. cbn zeta. rewrite rebuild_run.
  split; [|split; [|split]].
  - intros -> ->. reflexivity.
  - intros e -> -> ->. reflexivity.
  - intros Hrebuild.
    assert (Hb : outcome (LoadDocuments.load_quality_documents data_folder) = Ok [] ->
                 BuildVectorstore.build_vectorstore_from_folder data_folder
                   "faiss_index"
                 = Run (trace (LoadDocuments.load_quality_documents data_folder))
                     (Raise (Exc (ValueError
                        (BuildVectorstore.no_documents_message data_folder))))).
    { intros Hempty. rewrite build_vectorstore_from_folder_run. cbn zeta.
      by rewrite Hempty. }
    remember (BuildVectorstore.build_vectorstore_from_folder data_folder
                "faiss_index") as build eqn:Hbuild.
    clear Hbuild. destruct build as [t out]. cbn [trace outcome].
    destruct Hrebuild as [Hidx|[-> Hrm]].
    + rewrite Hidx, andb_false_r.
      split; [|split]; intros Hdf; rewrite Hdf; [reflexivity|reflexivity|].
      intros Hempty. by injection (Hb Hempty) as -> ->.
    + rewrite Hrm. destruct (path_exists "faiss_index"); cbn [andb];
        (split; [|split]; intros Hdf; rewrite Hdf; [reflexivity|reflexivity|]);
        intros Hempty; by injection (Hb Hempty) as -> ->.
  - pose proof (rebuild_outcome data_folder) as Hre. cbn zeta in Hre.
    rewrite rebuild_run in Hre.
    remember (if path_exists data_folder then _ else _) as rebuild
      eqn:Hrebuild.
    clear Hrebuild. destruct rebuild as [t out]. cbn [outcome] in Hre.
    destruct force_rebuild, (path_exists "faiss_index"); cbn [andb].
    + destruct (rmtree "faiss_index") as [e|[]].
      * right. right. repeat split. by exists e.
      * cbn. destruct Hre as [->| ->]; [by left|right; by left].
    + cbn. destruct Hre as [->| ->]; [by left|right; by left].
    + cbn. by left.
    + cbn. destruct Hre as [->| ->]; [by left|right; by left].
Qed.

(** X15: a forced rebuild removes the old index before anything else.  If
    the data folder is then missing, [initialize_system] exits with
    status 1 right after the removal; in every case the run starts with
    the removal and ends normally or in that exit. *)
Theorem forced_rebuild_removes_index_first (data_folder : string) :
  path_exists "faiss_index" = true ->
  rmtree "faiss_index" = inr tt ->
  hd_error (trace (Main.initialize_system data_folder true))
  = Some (Rmtree "faiss_index") /\
  (outcome (Main.initialize_system data_folder true) = Ok tt \/
   outcome (Main.initialize_system data_folder true) = Raise (SystemExit 1)) /\
  (path_exists data_folder = false ->
   Main.initialize_system data_folder true
   = Run [Rmtree "faiss_index"] (Raise (SystemExit 1))).
Proof.
  intros Hex Hrm. unfold Main.initialize_system, call. cbn zeta.
  rewrite Hex, Hrm. cbn [andb].
  pose proof (rebuild_outcome data_folder) as Hre. cbn zeta in Hre.
  assert (Hmissing : path_exists data_folder = false ->
            (if negb (path_exists data_folder) then Main.sys_exit 1
             else
               try_except
                 (_ ← BuildVectorstore.build_vectorstore_from_folder data_folder
                        "faiss_index";
                  mret tt)
                 (fun _ => Main.sys_exit 1))
            = Run [] (Raise (SystemExit 1))) by (by intros ->).
  remember (if negb (path_exists data_folder) then _ else _) as rebuild
    eqn:Hrebuild.
  clear Hrebuild. destruct rebuild as [t out]. cbn [outcome] in Hre. cbn.
  split; [reflexivity|]. split; [done|].
  intros Hno. by injection (Hmissing Hno) as -> ->.
Qed.

(** X16: over an existing index [demo] ends normally once the handler's
    two clients are created, whatever the chain and the search answer:
    it reads the index, and if that succeeds asks the three sample
    queries and makes one scored search with k = 3, each failure being
    swallowed; over an unreadable index it makes no query at all. *)
Theorem demo_over_existing_index (emb : Embeddings) (llm : LLM) :
  path_exists "faiss_index" = true ->
  new_embeddings = inr emb ->
  new_chat_llm "gpt-4o-mini" 0 = inr llm ->
  Demo.demo
  = Run ([NewEmbeddings; NewChatLLM "gpt-4o-mini"; LoadLocal "faiss_index"]
         ++ match load_local "faiss_index" emb with
            | inr _ =>
                map (ChainInvoke "stuff" 5 true) Demo.sample_queries
                ++ [SimilaritySearchWithScore "溶接" 3]
            | inl _ => []
            end)
      (Ok tt).
Proof.
  intros Hex Hemb Hllm. unfold Demo.demo. cbn zeta. rewrite Hex. cbn [negb].
  rewrite bind_mret_l. cbn [negb].
  rewrite (handler_init_run _ _ _ _ Hemb Hllm), bind_run_ok.
  set (handler := QueryHandler.mkRAGQueryHandler _ _ _ _).
  assert (Hq : forall query,
             try_except
               (_ ← QueryHandler.handle_query handler query true; mret tt)
               (fun _ => mret tt)
             = Run (match QueryHandler.vectorstore handler with
                    | Some _ => [ChainInvoke "stuff" 5 true query]
                    | None => []
                    end) (Ok tt)).
  { intros query.
    destruct (handle_query_calls handler query true) as [Hno Htr].
    by rewrite (try_except_swallows _ Hno), Htr. }
  assert (Hs : try_except
                 (_ ← QueryHandler.search_similar_cases handler "溶接" 3; mret tt)
                 (fun _ => mret tt)
               = Run (match QueryHandler.vectorstore handler with
                      | Some _ => [SimilaritySearchWithScore "溶接" 3]
                      | None => []
                      end) (Ok tt)).
  { destruct (search_similar_cases_calls handler "溶接" 3) as [Hno Htr].
    by rewrite (try_except_swallows _ Hno), Htr. }
  unfold Demo.sample_queries. cbn [for_each].
  rewrite !Hq, Hs, !bind_run_ok. subst handler. cbn [QueryHandler.vectorstore].
  by destruct (load_local "faiss_index" emb).
Qed.

(** X17: without an index, a failed build ends [demo] quietly: it returns
    normally after the build's calls, creating no handler and making no
    query. *)
Theorem demo_after_failed_build :
  path_exists "faiss_index" = false ->
  (forall vs,
     outcome (BuildVectorstore.build_vectorstore_from_folder "./data" "faiss_index")
     <> Ok vs) ->
  Demo.demo
  = Run (trace (BuildVectorstore.build_vectorstore_from_folder "./data"
                  "faiss_index"))
      (Ok tt).
Proof.
  intros Hex Hfail. unfold Demo.demo. cbn zeta. rewrite Hex. cbn [negb].
  pose proof (build_from_folder_no_exit "./data" "faiss_index") as Hno.
  unfold try_except.
  destruct (BuildVectorstore.build_vectorstore_from_folder "./data" "faiss_index")
    as [t [vs|[e|code]]].
  - by destruct (Hfail vs).
  - rewrite bind_run_raise. cbn. by rewrite !app_nil_r.
  - by destruct (Hno code).
Qed.

End MoreStartupFacts.

(** X14 where there is no index and the data folder holds no file. *)
Lemma initialize_system_outcomes_witness :
  @Main.initialize_system empty_folder_world "./data" false
  = Run [] (Raise (SystemExit 1)).
Proof.
  exact (proj2 (proj2 (proj1 (proj2 (proj2
           (@initialize_system_outcomes empty_folder_world "./data" false)))
           (or_introl eq_refl))) eq_refl eq_refl).
Defined.

(** Where the embedding client cannot be created, the build fails after
    the loader has run and start-up ends in the exit. *)
Example initialize_system_failed_build :
  @Main.initialize_system no_key_world "./data" false
  = Run (trace (@LoadDocuments.load_quality_documents no_key_world "./data")
         ++ [NewEmbeddings])
      (Raise (SystemExit 1)).
Proof. vm_compute. reflexivity. Qed.

(** X15 where the index exists and the data folder does not. *)
Lemma forced_rebuild_removes_index_first_witness :
  @Main.initialize_system stale_index_world "./data" true
  = Run [Rmtree "faiss_index"] (Raise (SystemExit 1)).
Proof.
  exact (proj2 (proj2 (@forced_rebuild_removes_index_first stale_index_world
                         "./data" eq_refl eq_refl)) eq_refl).
Defined.

(** X16 where every chain invocation fails. *)
Lemma demo_over_existing_index_witness :
  @Demo.demo stale_index_world
  = Run [NewEmbeddings; NewChatLLM "gpt-4o-mini"; LoadLocal "faiss_index";
         ChainInvoke "stuff" 5 true "溶接不良の是正策を教えてください";
         ChainInvoke "stuff" 5 true "寸法不良を防ぐにはどうすればいいですか";
         ChainInvoke "stuff" 5 true "過去の品質問題で最も多い原因は何ですか";
         SimilaritySearchWithScore "溶接" 3]
      (Ok tt).
Proof.
  exact (@demo_over_existing_index stale_index_world tt tt
           eq_refl eq_refl eq_refl).
Defined.

(** X17 where the embedding client cannot be created. *)
Lemma demo_after_failed_build_witness :
  @Demo.demo no_key_world
  = Run (trace (@BuildVectorstore.build_vectorstore_from_folder no_key_world
                  "./data" "faiss_index"))
      (Ok tt).
Proof.
  apply (@demo_after_failed_build no_key_world eq_refl).
  intros vs. vm_compute. discriminate.
Defined.

(** ** The console menu *)

Section ConsoleFacts.
Context `{W : World}.

Lemma handler_init_queries :
  Forall is_query_call (trace (QueryHandler.init "faiss_index" "gpt-4o-mini")).
Proof.
  unfold QueryHandler.init, QueryHandler._load_vectorstore, try_except, call.
  assert (H1 : is_query_call NewEmbeddings) by (by left).
  assert (H2 : is_query_call (NewChatLLM "gpt-4o-mini")) by (right; by left).
  assert (H3 : is_query_call (LoadLocal "faiss_index"))
    by (right; right; by left).
  destruct new_embeddings as [e|emb]; [by apply Forall_singleton|].
  rewrite bind_run_ok.
  destruct (new_chat_llm "gpt-4o-mini" 0) as [e|llm]; cbn.
  { repeat (apply Forall_cons; split; [assumption|]). constructor. }
  destruct (load_local "faiss_index" emb); cbn;
    repeat (apply Forall_cons; split; [assumption|]); constructor.
Qed.

Lemma ask_queries (handler : QueryHandler.RAGQueryHandler) (query : string) :
  Forall is_query_call (trace (Console.ask handler query)).
Proof.
  unfold Console.ask. destruct (String.eqb query ""); [constructor|].
  apply trace_bind_Forall; [|intros; constructor].
  destruct (handle_query_calls handler query true) as [_ ->].
  destruct (QueryHandler.vectorstore handler); [|constructor].
  apply Forall_singleton. right; right; right; left. by exists query.
Qed.

Lemma search_similar_cases_queries (handler : QueryHandler.RAGQueryHandler)
    (query : string) :
  Forall is_query_call (trace (Console.search_similar_cases handler query)).
Proof.
  unfold Console.search_similar_cases. destruct (String.eqb query ""); [constructor|].
  apply trace_bind_Forall; [|intros; constructor].
  destruct (search_similar_cases_calls handler query 5) as [_ ->].
  destruct (QueryHandler.vectorstore handler); [|constructor].
  apply Forall_singleton. right; right; right; right; left. by exists query.
Qed.

Lemma show_relevant_documents_queries (handler : QueryHandler.RAGQueryHandler)
    (query : string) :
  Forall is_query_call (trace (Console.show_relevant_documents handler query)).
Proof.
  unfold Console.show_relevant_documents.
  destruct (String.eqb query ""); [constructor|].
  apply trace_bind_Forall; [|intros; constructor].
  rewrite get_relevant_documents_calls.
  destruct (QueryHandler.vectorstore handler); [|constructor].
  apply Forall_singleton. right; right; right; right; right. by exists query.
Qed.

Lemma menu_loop_queries (data_folder : string) (n : nat) :
  forall (lines : list string) (handler : QueryHandler.RAGQueryHandler),
    (length lines <= n)%nat ->
    (forall line, In line lines -> confirms line = false) ->
    Forall is_query_call (trace (Console.menu_loop data_folder handler lines)).
Proof.
  induction n as [|n IH]; intros [|line rest] handler Hlen Hno;
    cbn [Console.menu_loop]; try constructor.
  { cbn in Hlen. lia. }
  assert (Hrest : forall handler', Forall is_query_call
                    (trace (Console.menu_loop data_folder handler' rest))).
  { intros handler'. apply IH; [cbn in Hlen; lia|].
    intros l Hl. apply Hno. by right. }
  assert (Hrest' : forall query rest' handler',
             rest = query :: rest' ->
             Forall is_query_call
               (trace (Console.menu_loop data_folder handler' rest'))).
  { intros query rest' handler' ->. apply IH; [cbn in Hlen; lia|].
    intros l Hl. apply Hno. right. by right. }
  cbn zeta.
  destruct (String.eqb (PyText.strip line) "1").
  { destruct rest as [|query rest']; [constructor|].
    apply trace_bind_Forall; [apply ask_queries|]. intros _. by eapply Hrest'. }
  destruct (String.eqb (PyText.strip line) "2").
  { destruct rest as [|query rest']; [constructor|].
    apply trace_bind_Forall; [apply search_similar_cases_queries|].
    intros _. by eapply Hrest'. }
  destruct (String.eqb (PyText.strip line) "3").
  { destruct rest as [|query rest']; [constructor|].
    apply trace_bind_Forall; [apply show_relevant_documents_queries|].
    intros _. by eapply Hrest'. }
  destruct (String.eqb (PyText.strip line) "4").
  { destruct rest as [|answer rest']; [constructor|].
    assert (Hanswer : confirms answer = false)
      by (apply Hno; right; by left).
    unfold confirms in Hanswer. rewrite Hanswer. by eapply Hrest'. }
  destruct (String.eqb (PyText.strip line) "5"); [constructor|].
  apply Hrest.
Qed.

(** X18: the console menu rebuilds nothing unasked.  As long as no input
    line is a confirmation (the word yes in any letter case, once the
    white space around it, Unicode white space included, is stripped), a
    whole session, whatever else is typed, only creates the handler and
    queries it: answers with sources through the k = 5 chain, scored
    searches with k = 5, plain searches with k = 3.  It never removes,
    builds or saves an index and never runs a loader. *)
Theorem menu_never_rebuilds_unconfirmed (lines : list string) (data_folder : string) :
  (forall line, In line lines -> confirms line = false) ->
  Forall is_query_call (trace (Console.interactive_mode lines data_folder)).
Proof.
  intros Hno. unfold Console.interactive_mode.
  apply trace_bind_Forall; [apply handler_init_queries|].
  intros handler. by apply (menu_loop_queries data_folder (length lines)).
Qed.

Lemma menu_loop_leaves (data_folder : string) (n : nat) :
  forall (lines : list string) (handler : QueryHandler.RAGQueryHandler),
    (length lines <= n)%nat ->
    outcome (Console.menu_loop data_folder handler lines) = Ok tt ->
    exists line, In line lines /\ leaves line = true.
Proof.
  induction n as [|n IH]; intros [|line rest] handler Hlen;
    cbn [Console.menu_loop]; try discriminate.
  { cbn in Hlen. lia. }
  assert (Hrest : forall handler',
             outcome (Console.menu_loop data_folder handler' rest) = Ok tt ->
             exists l, In l (line :: rest) /\ leaves l = true).
  { intros handler' Hok. destruct (IH rest handler') as (l & Hl & Hleaves);
      [cbn in Hlen; lia|done|]. exists l. split; [by right|done]. }
  assert (Hrest' : forall query rest' handler',
             rest = query :: rest' ->
             outcome (Console.menu_loop data_folder handler' rest') = Ok tt ->
             exists l, In l (line :: rest) /\ leaves l = true).
  { intros query rest' handler' -> Hok.
    destruct (IH rest' handler') as (l & Hl & Hleaves);
      [cbn in Hlen; lia|done|]. exists l. split; [right; by right|done]. }
  cbn zeta.
  destruct (String.eqb (PyText.strip line) "1").
  { destruct rest as [|query rest']; [discriminate|].
    intros (_ & _ & Hok)%outcome_bind_ok. by eapply Hrest'. }
  destruct (String.eqb (PyText.strip line) "2").
  { destruct rest as [|query rest']; [discriminate|].
    intros (_ & _ & Hok)%outcome_bind_ok. by eapply Hrest'. }
  destruct (String.eqb (PyText.strip line) "3").
  { destruct rest as [|query rest']; [discriminate|].
    intros (_ & _ & Hok)%outcome_bind_ok. by eapply Hrest'. }
  destruct (String.eqb (PyText.strip line) "4").
  { destruct rest as [|answer rest']; [discriminate|].
    destruct (String.eqb (Py.lower (PyText.strip answer)) "yes").
    - intros (_ & _ & (handler' & _ & Hok)%outcome_bind_ok)%outcome_bind_ok.
      by eapply Hrest'.
    - by eapply Hrest'. }
  destruct (String.eqb (PyText.strip line) "5") eqn:Hfive.
  { intros _. exists line. split; [by left|done]. }
  apply Hrest.
Qed.

(** X19: the console menu ends normally only through its exit choice: if
    a session returns, some input line is the choice 5 once the white
    space around it, Unicode white space included, is stripped.  Without
    such a line the session ends in an exception or an exit, at the
    latest when the input runs out. *)
Theorem menu_returns_only_on_exit_choice (lines : list string)
    (data_folder : string) :
  outcome (Console.interactive_mode lines data_folder) = Ok tt ->
  exists line, In line lines /\ leaves line = true.
Proof.
  unfold Console.interactive_mode.
  intros (handler & _ & Hok)%outcome_bind_ok.
  by apply (menu_loop_leaves data_folder (length lines) lines handler).
Qed.

End ConsoleFacts.

(** X18 at a session that asks, declines a rebuild, searches twice and
    leaves, the last line ending in an ideographic space. *)
Lemma menu_never_rebuilds_unconfirmed_witness :
  Forall is_query_call
    (trace (@Console.interactive_mode answering_world
              ["1"; "溶接不良"; " 4"; "no"; "2"; "weld"; "3"; "weld"; "5　"]
              "./data")).
Proof.
  apply (@menu_never_rebuilds_unconfirmed answering_world).
  intros line Hin. repeat (destruct Hin as [<-|Hin]; [reflexivity|]).
  destruct Hin.
Defined.

(** The run of that session: every choice is served, and the menu
    returns at the exit choice. *)
Example menu_session_run :
  @Console.interactive_mode answering_world
    ["1"; "溶接不良"; " 4"; "no"; "2"; "weld"; "3"; "weld"; "5　"] "./data"
  = Run [NewEmbeddings; NewChatLLM "gpt-4o-mini"; LoadLocal "faiss_index";
         ChainInvoke "stuff" 5 true "溶接不良";
         SimilaritySearchWithScore "weld" 5;
         SimilaritySearch "weld" 3]
      (Ok tt).
Proof. vm_compute. reflexivity. Qed.

(** White space outside ASCII is stripped like a blank: an ideographic
    space, a no-break space or a next-line character around the answer
    leaves a confirmation a confirmation and the exit choice the exit
    choice. *)
Example strip_unicode_space :
  PyText.strip "　yes " = "yes" /\
  confirms "YES　" = true /\
  confirms ("Yes" +:+ String (ascii_of_nat 194) (String (ascii_of_nat 160) "")) = true /\
  leaves "5　" = true /\
  leaves (String (ascii_of_nat 194) (String (ascii_of_nat 133) "5")) = true /\
  PyText.strip " 溶接　不良　" = "溶接　不良".
Proof. vm_compute. repeat split. Qed.

(** A confirmation followed by an ideographic space does rebuild: the old
    index is removed, and with the data folder missing the session ends
    in the exit. *)
Example menu_confirmed_rebuild :
  @Console.interactive_mode answering_world ["4"; "YES　"; "5"] "./data"
  = Run [NewEmbeddings; NewChatLLM "gpt-4o-mini"; LoadLocal "faiss_index";
         Rmtree "faiss_index"]
      (Raise (SystemExit 1)).
Proof. vm_compute. reflexivity. Qed.

(** X19 at a session that declines a rebuild and leaves. *)
Lemma menu_returns_only_on_exit_choice_witness :
  exists line, In line ["4"; "no"; "5　"] /\ leaves line = true.
Proof.
  apply (@menu_returns_only_on_exit_choice answering_world
           ["4"; "no"; "5　"] "./data").
  vm_compute. reflexivity.
Defined.

Section MainFacts.
Context `{W : World}.

(** X20: with the key set, [main] takes the data folder from
    [QUALITY_DATA_FOLDER] whenever the variable is set, also to the empty
    string, and [./data] otherwise.  Over an existing index it calls
    nothing before handing that folder to the menu loop; with neither
    index nor data folder it exits with status 1 and the menu loop is
    never entered. *)
Theorem main_startup (interactive_mode : string -> run unit) :
  Py.truthy (getenv "OPENAI_API_KEY") = true ->
  let data_folder := match environ !! "QUALITY_DATA_FOLDER" with
                     | Some folder => folder
                     | None => "./data"
                     end in
  (path_exists "faiss_index" = true ->
   Main.main interactive_mode = interactive_mode data_folder) /\
  (path_exists "faiss_index" = false -> path_exists data_folder = false ->
   Main.main interactive_mode = Run [] (Raise (SystemExit 1))).
Proof.
  intros Hkey data_folder. rewrite (main_with_api_key _ Hkey).
  unfold Main.initialize_system, getenv. cbn zeta.
  fold data_folder. change (default "./data" (environ !! "QUALITY_DATA_FOLDER"))
    with data_folder.
  split.
  - intros ->. cbn. apply run_eta.
  - intros -> ->. reflexivity.
Qed.

End MainFacts.

(** X20 in a world with the key set and the data folder overridden to
    the empty string. *)
Lemma main_startup_witness :
  @Main.main
    (sample_world {[ "OPENAI_API_KEY" := "sk-test"; "QUALITY_DATA_FOLDER" := "" ]}
       (fun _ => true) (fun _ => []) (fun _ _ => inr []) (fun _ => 0) (inr tt)
       (fun _ _ => inr []) (fun _ => inl (LibraryError "")))
    (fun data_folder => raise (Exc (ValueError data_folder)))
  = raise (Exc (ValueError "")).
Proof.
  exact (proj1 (@main_startup
                  (sample_world
                     {[ "OPENAI_API_KEY" := "sk-test"; "QUALITY_DATA_FOLDER" := "" ]}
                     (fun _ => true) (fun _ => []) (fun _ _ => inr [])
                     (fun _ => 0) (inr tt) (fun _ _ => inr [])
                     (fun _ => inl (LibraryError "")))
                  (fun data_folder => raise (Exc (ValueError data_folder)))
                  eq_refl) eq_refl).
Defined.
